(** * HubSpot OAuth2 adapter: a shallow embedding of
      [backend/integrations/hubspot.py] and [backend/models.py].

    Python values that come out of [response.json()] are modelled by the
    type [json]; a Python [str] is a Rocq [string] read as its UTF-8 bytes;
    the module-level dict [TOKEN_STORAGE] is a [gmap string json]; the
    outbound HTTP client is an oracle from requests to responses together
    with a log of the requests that were sent. *)

From Stdlib Require Import ZArith List Ascii String Bool Floats DecimalString.
From stdpp Require Import gmap strings fin_maps.
Import ListNotations.

Local Open Scope string_scope.
Local Open Scope list_scope.
Local Open Scope Z_scope.

(** ** Python values *)

(** What [json.loads] can return.  A dict is kept as the list of its items;
    lookups take the first item with the key. *)
#[warnings="-register-all"]
Inductive json : Type :=
| JNull
| JBool (b : bool)
| JInt (n : Z)
| JFloat (x : float)
| JStr (s : string)
| JArr (items : list json)
| JObj (fields : list (string * json)).

Inductive exn : Type :=
| HTTPException (status_code : Z) (detail : string)
| KeyError (key : string)
| AttributeError
| TypeError
| ValidationError
| JSONDecodeError.

Inductive result (A : Type) : Type :=
| Ok (a : A)
| Raise (e : exn).
Arguments Ok {A} a.
Arguments Raise {A} e.

Definition rbind {A B} (r : result A) (k : A -> result B) : result B :=
  match r with
  | Ok a => k a
  | Raise e => Raise e
  end.

Fixpoint rmap {A B} (f : A -> result B) (l : list A) : result (list B) :=
  match l with
  | [] => Ok []
  | x :: l' => rbind (f x) (fun y => rbind (rmap f l') (fun ys => Ok (y :: ys)))
  end.

(** [bool(v)]: Python truthiness. *)
Definition truthy (v : json) : bool :=
  match v with
  | JNull => false
  | JBool b => b
  | JInt n => negb (n =? 0)
  | JFloat x => negb (PrimFloat.eqb x PrimFloat.zero)
  | JStr s => negb (String.eqb s "")
  | JArr items => match items with [] => false | _ => true end
  | JObj fields => match fields with [] => false | _ => true end
  end.

Fixpoint assoc {A} (k : string) (l : list (string * A)) : option A :=
  match l with
  | [] => None
  | (k', v) :: l' => if String.eqb k k' then Some v else assoc k l'
  end.

(** [d.get(k, default)] on a dict. *)
Definition dict_get (k : string) (d : list (string * json)) (default : json) : json :=
  match assoc k d with
  | Some v => v
  | None => default
  end.

(** [v.get(k, default)]: only a dict has the attribute. *)
Definition py_get (v : json) (k : string) (default : json) : result json :=
  match v with
  | JObj d => Ok (dict_get k d default)
  | _ => Raise AttributeError
  end.

(** [v[k]] with a string key. *)
Definition py_getitem (v : json) (k : string) : result json :=
  match v with
  | JObj d => match assoc k d with
              | Some x => Ok x
              | None => Raise (KeyError k)
              end
  | _ => Raise TypeError
  end.

Fixpoint chars (s : string) : list json :=
  match s with
  | EmptyString => []
  | String c s' => JStr (String c EmptyString) :: chars s'
  end.

(** The elements a [for] loop visits: the items of a list, the keys of a
    dict, the characters of a str; anything else is not iterable. *)
Definition py_iter (v : json) : result (list json) :=
  match v with
  | JArr items => Ok items
  | JObj d => Ok (map (fun kv => JStr (fst kv)) d)
  | JStr s => Ok (chars s)
  | _ => Raise TypeError
  end.

(** ** [urllib.parse.quote_plus] over the UTF-8 bytes of a string *)

Definition is_unreserved (c : ascii) : bool :=
  let n := nat_of_ascii c in
  ((65 <=? n) && (n <=? 90) || (97 <=? n) && (n <=? 122)
   || (48 <=? n) && (n <=? 57)
   || (n =? 95) || (n =? 46) || (n =? 45) || (n =? 126))%nat.

Definition hex_digit (n : nat) : ascii :=
  if (n <? 10)%nat then ascii_of_nat (48 + n) else ascii_of_nat (55 + n).

Definition quote_byte (c : ascii) : string :=
  if is_unreserved c then String c EmptyString
  else if Ascii.eqb c " "%char then "+"
  else String "%"%char
         (String (hex_digit (nat_of_ascii c / 16))
            (String (hex_digit (nat_of_ascii c mod 16)) EmptyString)).

Fixpoint quote_plus (s : string) : string :=
  match s with
  | EmptyString => EmptyString
  | String c s' => quote_byte c +:+ quote_plus s'
  end.

Fixpoint join (sep : string) (l : list string) : string :=
  match l with
  | [] => ""
  | [x] => x
  | x :: l' => x +:+ sep +:+ join sep l'
  end.

(** [urlencode(params)] for a dict whose keys and values are already str. *)
Definition urlencode (params : list (string * string)) : string :=
  join "&" (map (fun kv => quote_plus (fst kv) +:+ "=" +:+ quote_plus (snd kv)) params).

(** [str(v)] of an environment value: [os.getenv] gives a str or [None]. *)
Definition str_of_env (v : option string) : string :=
  match v with
  | Some s => s
  | None => "None"
  end.

(** ** Reading a query string back

    What a server does with the query string of the authorization URL:
    cut it at each [&], cut each piece at its first [=], and undo the
    percent-encoding of both sides. *)

Definition hex_value (c : ascii) : option nat :=
  let n := nat_of_ascii c in
  (if (48 <=? n) && (n <=? 57) then Some (n - 48)
   else if (65 <=? n) && (n <=? 70) then Some (n - 55)
   else if (97 <=? n) && (n <=? 102) then Some (n - 87)
   else None)%nat.

Fixpoint unquote_plus (s : string) : string :=
  match s with
  | EmptyString => EmptyString
  | String c t =>
      if Ascii.eqb c "+"%char then String " "%char (unquote_plus t)
      else if Ascii.eqb c "%"%char then
        match t with
        | String h (String l t') =>
            match hex_value h, hex_value l with
            | Some a, Some b =>
                String (ascii_of_nat (16 * a + b)) (unquote_plus t')
            | _, _ => String c (unquote_plus t)
            end
        | _ => String c (unquote_plus t)
        end
      else String c (unquote_plus t)
  end.

Fixpoint occurs (sep : ascii) (s : string) : bool :=
  match s with
  | EmptyString => false
  | String c t => Ascii.eqb c sep || occurs sep t
  end.

(** The pieces of [s] between the occurrences of [sep]. *)
Fixpoint split_on (sep : ascii) (s : string) : list string :=
  match s with
  | EmptyString => [EmptyString]
  | String c t =>
      if Ascii.eqb c sep then EmptyString :: split_on sep t
      else match split_on sep t with
           | h :: rest => String c h :: rest
           | [] => [String c EmptyString]
           end
  end.

(** [s] cut at its first [sep]. *)
Fixpoint cut (sep : ascii) (s : string) : string * string :=
  match s with
  | EmptyString => (EmptyString, EmptyString)
  | String c t =>
      if Ascii.eqb c sep then (EmptyString, t)
      else let (a, b) := cut sep t in (String c a, b)
  end.

Definition query_pairs (q : string) : list (string * string) :=
  match q with
  | EmptyString => []
  | _ => map (fun piece => let (k, v) := cut "="%char piece in
                           (unquote_plus k, unquote_plus v))
             (split_on "&"%char q)
  end.

Definition query_of_url (url : string) : string := snd (cut "?"%char url).

(** ** models.py *)

Record IntegrationItem : Type := {
  id : string;
  name : string;
  type : string;
  email : option string;
  phone : option string;
  website : option string;
  industry : option string
}.

(** ** The HTTP client and the module state *)

Inductive request : Type :=
| POST (url : string) (data : list (string * option string))
| GET (url : string) (headers : list (string * string)).

(** [body] is [None] when the payload is not JSON, so that
    [response.json()] raises. *)
Record response : Type := {
  status_code : Z;
  body : option json
}.

Record world : Type := {
  TOKEN_STORAGE : gmap string json;
  sent : list request
}.

Definition M (A : Type) : Type := world -> result A * world.

Definition ret {A} (a : A) : M A := fun w => (Ok a, w).
Definition raise {A} (e : exn) : M A := fun w => (Raise e, w).
Definition bind {A B} (m : M A) (k : A -> M B) : M B :=
  fun w => match m w with
           | (Ok a, w') => k a w'
           | (Raise e, w') => (Raise e, w')
           end.
Definition lift {A} (r : result A) : M A := fun w => (r, w).

Notation "x <- m ;; k" := (bind m (fun x => k))
  (at level 100, m at next level, right associativity).
Notation "m ;;; k" := (bind m (fun _ => k))
  (at level 100, right associativity).

Definition response_json (r : response) : result json :=
  match body r with
  | Some v => Ok v
  | None => Raise JSONDecodeError
  end.

Notation "'let?' x ':=' r 'in' k" := (rbind r (fun x => k))
  (at level 10, x name, r at level 100, k at level 200).

Fixpoint for_in {A S} (l : list A) (body : A -> S -> M S) (s : S) : M S :=
  match l with
  | [] => ret s
  | x :: l' => s' <- body x s ;; for_in l' body s'
  end.

(** [request.query_params.get(k)]: Starlette keeps the last value given
    for a key. *)
Fixpoint query_get (k : string) (query_params : list (string * string)) : option string :=
  match query_params with
  | [] => None
  | (k', v) :: rest =>
      match query_get k rest with
      | Some v' => Some v'
      | None => if String.eqb k k' then Some v else None
      end
  end.

Definition json_of_opt (v : option string) : json :=
  match v with
  | Some s => JStr s
  | None => JNull
  end.

Definition HUBSPOT_AUTH_URL := "https://app.hubspot.com/oauth/authorize".
Definition HUBSPOT_TOKEN_URL := "https://api.hubapi.com/oauth/v1/token".
Definition HUBSPOT_CONTACTS_URL := "https://api.hubapi.com/crm/v3/objects/contacts".
Definition HUBSPOT_COMPANIES_URL := "https://api.hubapi.com/crm/v3/objects/companies".

Section Hubspot.

(** The three [os.getenv] results read at import time. *)
Variables HUBSPOT_CLIENT_ID HUBSPOT_CLIENT_SECRET HUBSPOT_REDIRECT_URI : option string.

(** The text [str(v)] gives for a float, a list or a dict. *)
Variable py_repr : json -> string.

(** Whether the installed pydantic is 1.x: its str validator converts
    numbers with [str], the one of 2.x rejects them. *)
Variable pydantic_v1 : bool.

(** The provider, as seen through [httpx.AsyncClient]. *)
Variable provider : request -> response.

(** [str(v)], which is also what an f-string field prints. *)
Definition format_value (v : json) : string :=
  match v with
  | JStr s => s
  | JNull => "None"
  | JBool true => "True"
  | JBool false => "False"
  | JInt n => NilZero.string_of_int (Z.to_int n)
  | _ => py_repr v
  end.

(** A field annotated [str]. *)
Definition str_validator (v : json) : option string :=
  match v with
  | JStr s => Some s
  | JBool _ | JInt _ | JFloat _ =>
      if pydantic_v1 then Some (format_value v) else None
  | _ => None
  end.

(** A field annotated [Optional[str] = None]. *)
Definition optional_str_validator (v : json) : option (option string) :=
  match v with
  | JNull => Some None
  | _ => option_map Some (str_validator v)
  end.

(** [IntegrationItem(id=..., name=..., ...)]: every field is validated and
    one [ValidationError] reports all failures. *)
Definition IntegrationItem_init
    (id name type email phone website industry : json) : result IntegrationItem :=
  match str_validator id, str_validator name, str_validator type,
        optional_str_validator email, optional_str_validator phone,
        optional_str_validator website, optional_str_validator industry with
  | Some i, Some n, Some t, Some e, Some p, Some w, Some d =>
      Ok {| id := i; name := n; type := t; email := e; phone := p;
            website := w; industry := d |}
  | _, _, _, _, _, _, _ => Raise ValidationError
  end.

Definition client_post (url : string) (data : list (string * option string)) : M response :=
  fun w => (Ok (provider (POST url data)),
            {| TOKEN_STORAGE := TOKEN_STORAGE w; sent := (sent w ++ [POST url data]) |}).

Definition client_get (url : string) (headers : list (string * string)) : M response :=
  fun w => (Ok (provider (GET url headers)),
            {| TOKEN_STORAGE := TOKEN_STORAGE w; sent := (sent w ++ [GET url headers]) |}).

(** [TOKEN_STORAGE.get(k)] *)
Definition storage_get (k : string) : M json :=
  fun w => (Ok (default JNull (TOKEN_STORAGE w !! k)), w).

(** [TOKEN_STORAGE[k] = v] *)
Definition storage_set (k : string) (v : json) : M unit :=
  fun w => (Ok tt, {| TOKEN_STORAGE := <[k := v]> (TOKEN_STORAGE w); sent := sent w |}).

Definition authorize_hubspot (user_id org_id : string) : string :=
  let params :=
    [ ("client_id", str_of_env HUBSPOT_CLIENT_ID);
      ("redirect_uri", str_of_env HUBSPOT_REDIRECT_URI);
      ("scope", "crm.objects.contacts.read crm.objects.companies.read");
      ("response_type", "code") ] in
  HUBSPOT_AUTH_URL +:+ "?" +:+ urlencode params.

Definition oauth2callback_hubspot (query_params : list (string * string)) : M json :=
  let code := query_get "code" query_params in
  if negb (truthy (json_of_opt code)) then
    raise (HTTPException 400 "Authorization code missing")
  else
    let data :=
      [ ("grant_type", Some "authorization_code");
        ("client_id", HUBSPOT_CLIENT_ID);
        ("client_secret", HUBSPOT_CLIENT_SECRET);
        ("redirect_uri", HUBSPOT_REDIRECT_URI);
        ("code", code) ] in
    response <- client_post HUBSPOT_TOKEN_URL data ;;
    if negb (status_code response =? 200) then
      raise (HTTPException (status_code response) "Failed to get access token")
    else
      tokens <- lift (response_json response) ;;
      storage_set "hubspot" tokens ;;;
      ret (JObj [("message", JStr "HubSpot authentication successful")]).

Definition get_hubspot_credentials (user_id org_id : string) : M json :=
  credentials <- storage_get "hubspot" ;;
  if negb (truthy credentials) then
    raise (HTTPException 401 "Missing HubSpot credentials")
  else ret credentials.

(** Lines 91-97: the keyword arguments are evaluated left to right, then
    the model is validated. *)
Definition contact_item (contact : json) : result IntegrationItem :=
  let? id_ := py_get contact "id" JNull in
  let? props := py_getitem contact "properties" in
  let? firstname := py_get props "firstname" (JStr "") in
  let? props := py_getitem contact "properties" in
  let? lastname := py_get props "lastname" (JStr "") in
  let name_ := format_value firstname +:+ " " +:+ format_value lastname in
  let? props := py_getitem contact "properties" in
  let? email_ := py_get props "email" JNull in
  let? props := py_getitem contact "properties" in
  let? phone_ := py_get props "phone" JNull in
  IntegrationItem_init id_ (JStr name_) (JStr "contact") email_ phone_ JNull JNull.

(** Lines 106-112. *)
Definition company_item (company : json) : result IntegrationItem :=
  let? id_ := py_get company "id" JNull in
  let? props := py_getitem company "properties" in
  let? name_ := py_get props "name" (JStr "") in
  let? props := py_getitem company "properties" in
  let? website_ := py_get props "website" JNull in
  let? props := py_getitem company "properties" in
  let? industry_ := py_get props "industry" JNull in
  IntegrationItem_init id_ name_ (JStr "company") JNull JNull website_ industry_.

Definition get_items_hubspot (user_id org_id : string) : M (list IntegrationItem) :=
  credentials <- get_hubspot_credentials user_id org_id ;;
  (if negb (truthy credentials) then
     raise (HTTPException 401 "HubSpot credentials not found")
   else ret tt) ;;;
  access_token <- lift (py_getitem credentials "access_token") ;;
  let headers := [("Authorization", "Bearer " +:+ format_value access_token)] in
  let integration_items : list IntegrationItem := [] in
  contact_response <- client_get HUBSPOT_CONTACTS_URL headers ;;
  integration_items <-
    (if status_code contact_response =? 200 then
       payload <- lift (response_json contact_response) ;;
       contacts <- lift (py_get payload "results" (JArr [])) ;;
       elems <- lift (py_iter contacts) ;;
       for_in elems
         (fun contact integration_items =>
            integration_item <- lift (contact_item contact) ;;
            ret (integration_items ++ [integration_item]))
         integration_items
     else ret integration_items) ;;
  company_response <- client_get HUBSPOT_COMPANIES_URL headers ;;
  integration_items <-
    (if status_code company_response =? 200 then
       payload <- lift (response_json company_response) ;;
       companies <- lift (py_get payload "results" (JArr [])) ;;
       elems <- lift (py_iter companies) ;;
       for_in elems
         (fun company integration_items =>
            integration_item <- lift (company_item company) ;;
            ret (integration_items ++ [integration_item]))
         integration_items
     else ret integration_items) ;;
  match integration_items with
  | [] => raise (HTTPException 404 "No HubSpot items found")
  | _ => ret integration_items
  end.

(** ** Notions used to state the properties *)

(** The elements of the [results] array a response contributes: none
    unless the status is 200. *)
Definition page_results (r : response) : result (list json) :=
  if status_code r =? 200 then
    let? payload := response_json r in
    let? results := py_get payload "results" (JArr []) in
    py_iter results
  else Ok [].

Definition items_of (mk : json -> result IntegrationItem) (r : response)
  : result (list IntegrationItem) :=
  let? elems := page_results r in rmap mk elems.

(** The world after the requests [l] have been sent. *)
Definition logged (w : world) (l : list request) : world :=
  {| TOKEN_STORAGE := TOKEN_STORAGE w; sent := (sent w ++ l) |}.

(** A credential with an access token is on file. *)
Definition authorized (w : world) (access_token : json) : Prop :=
  exists credentials,
    TOKEN_STORAGE w !! "hubspot" = Some credentials /\
    py_getitem credentials "access_token" = Ok access_token.

Definition bearer (access_token : json) : list (string * string) :=
  [("Authorization", "Bearer " +:+ format_value access_token)].

Definition contacts_request (access_token : json) : request :=
  GET HUBSPOT_CONTACTS_URL (bearer access_token).

Definition companies_request (access_token : json) : request :=
  GET HUBSPOT_COMPANIES_URL (bearer access_token).

Definition is_set (v : option string) : bool :=
  match v with Some _ => true | None => false end.

Definition contact_group_populated (i : IntegrationItem) : bool :=
  is_set (email i) || is_set (phone i).

Definition company_group_populated (i : IntegrationItem) : bool :=
  is_set (website i) || is_set (industry i).

(** Exactly one of the two field groups holds a value. *)
Definition exactly_one_group_populated (i : IntegrationItem) : bool :=
  xorb (contact_group_populated i) (company_group_populated i).

(** [d.get(k, '')] printed in an f-string. *)
Definition name_part (k : string) (properties : list (string * json)) : string :=
  match assoc k properties with
  | Some v => format_value v
  | None => ""
  end.

(** A response that yields no element: a status other than 200, or a
    JSON object whose [results] is the empty array (or is missing, in
    which case the default [[]] is taken). *)
Definition contributes_nothing (r : response) : Prop :=
  status_code r <> 200 \/
  exists d, body r = Some (JObj d) /\ dict_get "results" d (JArr []) = JArr [].

(** The form posted to the token endpoint for a callback carrying [code]. *)
Definition token_request (code : option string) : request :=
  POST HUBSPOT_TOKEN_URL
    [ ("grant_type", Some "authorization_code");
      ("client_id", HUBSPOT_CLIENT_ID);
      ("client_secret", HUBSPOT_CLIENT_SECRET);
      ("redirect_uri", HUBSPOT_REDIRECT_URI);
      ("code", code) ].

(** One [key=value] piece of [urlencode]. *)
Definition encode_pair (kv : string * string) : string :=
  quote_plus (fst kv) +:+ "=" +:+ quote_plus (snd kv).

(** ** Sample inputs *)

(** No sample below prints a float, a list or a dict, so any function
    can stand for their [str]. *)
Definition repr_unused : json -> string := fun _ => "".

(** A 200 response whose [results] array is [l]. *)
Definition page (l : list json) : response :=
  {| status_code := 200; body := Some (JObj [("results", JArr l)]) |}.

Definition failed (status : Z) : response :=
  {| status_code := status; body := None |}.

(** A provider that answers the contacts URL with [contacts] and every
    other GET with [companies]. *)
Definition serve (contacts companies : response) (r : request) : response :=
  match r with
  | GET u _ => if String.eqb u HUBSPOT_CONTACTS_URL then contacts else companies
  | POST _ _ => failed 405
  end.

Definition token_endpoint (r : response) (_ : request) : response := r.

Definition stored (credentials : json) : world :=
  {| TOKEN_STORAGE := {[ "hubspot" := credentials ]}; sent := [] |}.

Definition empty_world : world := {| TOKEN_STORAGE := ∅; sent := [] |}.

(** A 200 response with the JSON payload [v]. *)
Definition ok_body (v : json) : response :=
  {| status_code := 200; body := Some v |}.

Definition sample_credentials : json := JObj [("access_token", JStr "tok")].

Definition sample_contact : json :=
  JObj [("id", JStr "1");
        ("properties",
         JObj [("firstname", JStr "A"); ("lastname", JStr "B");
               ("email", JStr "a@x.com")])].

Definition sample_contact_item : IntegrationItem :=
  {| id := "1"; name := "A B"; type := "contact"; email := Some "a@x.com";
     phone := None; website := None; industry := None |}.

Definition bare_contact : json :=
  JObj [("id", JStr "7"); ("properties", JObj [])].

Definition bare_contact_item : IntegrationItem :=
  {| id := "7"; name := " "; type := "contact"; email := None;
     phone := None; website := None; industry := None |}.

Definition sample_company : json :=
  JObj [("id", JStr "9");
        ("properties", JObj [("name", JStr "Acme"); ("website", JStr "acme.test")])].

Definition sample_company_item : IntegrationItem :=
  {| id := "9"; name := "Acme"; type := "company"; email := None;
     phone := None; website := Some "acme.test"; industry := None |}.

(** ** Further notions and samples *)

(** What the callback returns on success (line 62). *)
Definition success_message : json :=
  JObj [("message", JStr "HubSpot authentication successful")].

(** The world after the request [rq] was answered with [tokens] and line 60
    has run. *)
Definition exchanged (w : world) (tokens : json) (rq : request) : world :=
  {| TOKEN_STORAGE := <["hubspot" := tokens]> (TOKEN_STORAGE w);
     sent := sent w ++ [rq] |}.

Definition is_http (e : exn) : bool :=
  match e with
  | HTTPException _ _ => true
  | _ => false
  end.

(** The value of a field that is a string, null or absent; [None] for any
    other content. *)
Definition field_text (k : string) (properties : list (string * json))
  : option (option string) :=
  match assoc k properties with
  | None | Some JNull => Some None
  | Some (JStr s) => Some (Some s)
  | Some _ => None
  end.

Fixpoint all_chars (P : ascii -> bool) (s : string) : bool :=
  match s with
  | EmptyString => true
  | String c t => P c && all_chars P t
  end.

(** The characters [urlencode] can produce. *)
Definition query_safe (c : ascii) : bool :=
  is_unreserved c || Ascii.eqb c "%"%char || Ascii.eqb c "+"%char
  || Ascii.eqb c "&"%char || Ascii.eqb c "="%char.

(** A 200 response whose payload is not JSON. *)
Definition garbled : response := {| status_code := 200; body := None |}.

Definition first_credentials : json :=
  JObj [("access_token", JStr "t1"); ("refresh_token", JStr "r1")].

Definition second_credentials : json := JObj [("access_token", JStr "t2")].

(** A token endpoint that answers code "first" with one credential and
    every other code with another. *)
Definition token_by_code (r : request) : response :=
  match r with
  | POST _ data =>
      match assoc "code" data with
      | Some (Some c) =>
          if String.eqb c "first"
          then ok_body first_credentials
          else ok_body second_credentials
      | _ => failed 400
      end
  | GET _ _ => failed 405
  end.

(** ** Running the monad *)

Lemma bind_Ok {A B} (m : M A) (k : A -> M B) w a w' :
  m w = (Ok a, w') -> bind m k w = k a w'.
Proof. intros H. unfold bind. now rewrite H. Qed.

Lemma bind_Raise {A B} (m : M A) (k : A -> M B) w e w' :
  m w = (Raise e, w') -> bind m k w = (Raise e, w').
Proof. intros H. unfold bind. now rewrite H. Qed.

(** The loop of lines 89-98 (and 104-113) appends the items built from
    the elements, in order, or stops at the first element that raises. *)
Lemma for_in_append (mk : json -> result IntegrationItem) l acc w :
  for_in l
    (fun x (acc : list IntegrationItem) =>
       y <- lift (mk x) ;; ret (acc ++ [y])) acc w
  = (rbind (rmap mk l) (fun ys => Ok (acc ++ ys)), w).
Proof.
  revert acc. induction l as [|x l IH]; intros acc; simpl.
  - unfold ret. now rewrite app_nil_r.
  - unfold bind at 1. unfold bind at 1. unfold lift at 1.
    destruct (mk x) as [y|e]; simpl; [|reflexivity].
    rewrite IH. destruct (rmap mk l) as [ys|e]; simpl; [|reflexivity].
    now rewrite <- app_assoc.
Qed.

(** One resource block of [get_items_hubspot]: lines 87-98 or 102-113. *)
Lemma block_run (mk : json -> result IntegrationItem) r acc w :
  (if status_code r =? 200 then
     payload <- lift (response_json r) ;;
     results <- lift (py_get payload "results" (JArr [])) ;;
     elems <- lift (py_iter results) ;;
     for_in elems
       (fun x (acc : list IntegrationItem) =>
          y <- lift (mk x) ;; ret (acc ++ [y])) acc
   else ret acc) w
  = (rbind (items_of mk r) (fun ys => Ok (acc ++ ys)), w).
Proof.
  unfold items_of, page_results.
  destruct (status_code r =? 200).
  - unfold bind, lift.
    destruct (response_json r) as [payload|e]; simpl; [|reflexivity].
    destruct (py_get payload "results" (JArr [])) as [results|e]; simpl; [|reflexivity].
    destruct (py_iter results) as [elems|e]; simpl; [|reflexivity].
    apply for_in_append.
  - simpl. unfold ret. now rewrite app_nil_r.
Qed.

Lemma getitem_truthy v k x : py_getitem v k = Ok x -> truthy v = true.
Proof.
  destruct v; simpl; try discriminate.
  destruct fields; simpl; [discriminate|reflexivity].
Qed.

Lemma credentials_run u o w :
  get_hubspot_credentials u o w =
  (match TOKEN_STORAGE w !! "hubspot" with
   | Some c => if truthy c then Ok c
               else Raise (HTTPException 401 "Missing HubSpot credentials")
   | None => Raise (HTTPException 401 "Missing HubSpot credentials")
   end, w).
Proof.
  unfold get_hubspot_credentials, bind, storage_get.
  destruct (TOKEN_STORAGE w !! "hubspot") as [c|]; simpl; [|reflexivity].
  now destruct (truthy c).
Qed.

(** What a fetch does once a credential with an access token is on file. *)
Lemma get_items_hubspot_run u o w tok :
  authorized w tok ->
  get_items_hubspot u o w =
  match items_of contact_item (provider (contacts_request tok)) with
  | Raise e => (Raise e, logged w [contacts_request tok])
  | Ok cs =>
      match items_of company_item (provider (companies_request tok)) with
      | Raise e => (Raise e, logged w [contacts_request tok; companies_request tok])
      | Ok ds =>
          (match (cs ++ ds) with
           | [] => Raise (HTTPException 404 "No HubSpot items found")
           | _ :: _ => Ok (cs ++ ds)
           end,
           logged w [contacts_request tok; companies_request tok])
      end
  end.
Proof.
  intros (c & Hc & Htok).
  pose proof (getitem_truthy _ _ _ Htok) as Ht.
  unfold get_items_hubspot.
  rewrite (bind_Ok _ _ w c w)
    by (rewrite credentials_run, Hc, Ht; reflexivity).
  rewrite Ht. simpl negb. cbv iota.
  rewrite (bind_Ok _ _ w tt w) by reflexivity.
  rewrite (bind_Ok _ _ w tok w) by (unfold lift; now rewrite Htok).
  fold (bearer tok).
  rewrite (bind_Ok _ _ w (provider (contacts_request tok)) (logged w [contacts_request tok]))
    by reflexivity.
  unfold bind at 1. rewrite block_run.
  destruct (items_of contact_item (provider (contacts_request tok))) as [cs|e];
    simpl rbind; [|reflexivity].
  unfold bind at 1. unfold client_get at 1. cbv beta iota.
  unfold bind at 1. rewrite block_run.
  unfold logged; simpl TOKEN_STORAGE; simpl sent. rewrite <- app_assoc. simpl app.
  fold (companies_request tok).
  destruct (items_of company_item (provider (companies_request tok))) as [ds|e];
    simpl rbind; [|reflexivity].
  destruct (cs ++ ds); reflexivity.
Qed.

(** ** One item *)

Lemma format_default k p :
  format_value (dict_get k p (JStr "")) = name_part k p.
Proof. unfold dict_get, name_part. now destruct (assoc k p). Qed.

Lemma init_Ok a b c d e f g i :
  IntegrationItem_init a b c d e f g = Ok i ->
  str_validator a = Some (id i) /\ str_validator b = Some (name i) /\
  str_validator c = Some (type i) /\
  optional_str_validator d = Some (email i) /\
  optional_str_validator e = Some (phone i) /\
  optional_str_validator f = Some (website i) /\
  optional_str_validator g = Some (industry i).
Proof.
  unfold IntegrationItem_init.
  destruct (str_validator a), (str_validator b), (str_validator c),
    (optional_str_validator d), (optional_str_validator e),
    (optional_str_validator f), (optional_str_validator g);
    try discriminate.
  intros [= <-]. simpl. repeat split.
Qed.

Lemma contact_item_Ok contact i :
  contact_item contact = Ok i ->
  exists d p,
    contact = JObj d /\ assoc "properties" d = Some (JObj p) /\
    str_validator (dict_get "id" d JNull) = Some (id i) /\
    name i = name_part "firstname" p +:+ " " +:+ name_part "lastname" p /\
    type i = "contact" /\
    optional_str_validator (dict_get "email" p JNull) = Some (email i) /\
    optional_str_validator (dict_get "phone" p JNull) = Some (phone i) /\
    website i = None /\ industry i = None.
Proof.
  unfold contact_item.
  destruct contact as [| | | | |?|d]; try discriminate.
  simpl. destruct (assoc "properties" d) as [props|] eqn:Hprops; [|discriminate].
  simpl. destruct props as [| | | | |?|p]; try discriminate.
  simpl. intros H. apply init_Ok in H.
  destruct H as (Hid & Hname & Htype & He & Hp & Hw & Hi).
  simpl in Hname, Htype, Hw, Hi.
  rewrite !format_default in Hname.
  exists d, p. repeat split; congruence.
Qed.

Lemma company_item_Ok company i :
  company_item company = Ok i ->
  exists d p,
    company = JObj d /\ assoc "properties" d = Some (JObj p) /\
    str_validator (dict_get "id" d JNull) = Some (id i) /\
    str_validator (dict_get "name" p (JStr "")) = Some (name i) /\
    type i = "company" /\
    optional_str_validator (dict_get "website" p JNull) = Some (website i) /\
    optional_str_validator (dict_get "industry" p JNull) = Some (industry i) /\
    email i = None /\ phone i = None.
Proof.
  unfold company_item.
  destruct company as [| | | | |?|d]; try discriminate.
  simpl. destruct (assoc "properties" d) as [props|] eqn:Hprops; [|discriminate].
  simpl. destruct props as [| | | | |?|p]; try discriminate.
  simpl. intros H. apply init_Ok in H.
  destruct H as (Hid & Hname & Htype & He & Hp & Hw & Hi).
  simpl in Htype, He, Hp.
  exists d, p. repeat split; congruence.
Qed.

Lemma rmap_Forall2 {A B} (f : A -> result B) l ys :
  rmap f l = Ok ys -> Forall2 (fun x y => f x = Ok y) l ys.
Proof.
  revert ys. induction l as [|x l IH]; simpl; intros ys H.
  - injection H as <-. constructor.
  - destruct (f x) as [y|] eqn:Hx; [|discriminate]. simpl in H.
    destruct (rmap f l) as [ys'|]; [|discriminate]. simpl in H.
    injection H as <-. constructor; auto.
Qed.

Lemma Forall2_Forall_r {A B} (R : A -> B -> Prop) (P : B -> Prop) l ys :
  Forall2 R l ys -> (forall x y, R x y -> P y) -> Forall P ys.
Proof. induction 1; intros HP; constructor; eauto. Qed.

Lemma Forall2_In_r {A B} (R : A -> B -> Prop) l ys y :
  Forall2 R l ys -> In y ys -> exists x, In x l /\ R x y.
Proof.
  induction 1 as [|x y' l ys Hxy _ IH]; simpl; [tauto|].
  intros [<-|Hin]; [now exists x; auto|].
  destruct (IH Hin) as (x' & ? & ?). exists x'. auto.
Qed.

Lemma items_of_Ok mk r ys :
  items_of mk r = Ok ys ->
  exists elems, page_results r = Ok elems /\
                Forall2 (fun x y => mk x = Ok y) elems ys.
Proof.
  unfold items_of. destruct (page_results r) as [elems|]; [|discriminate].
  simpl. intros H. exists elems. split; [reflexivity|now apply rmap_Forall2].
Qed.

Lemma items_of_nothing mk r : contributes_nothing r -> items_of mk r = Ok [].
Proof.
  unfold items_of, page_results. intros [Hs|(d & Hb & Hd)].
  - apply Z.eqb_neq in Hs. now rewrite Hs.
  - destruct (status_code r =? 200); [|reflexivity].
    unfold response_json. rewrite Hb. simpl. now rewrite Hd.
Qed.

Lemma items_of_skipped mk r : status_code r <> 200 -> items_of mk r = Ok [].
Proof. intros H. apply items_of_nothing. now left. Qed.

(** A fetch that returns went through both requests. *)
Lemma get_items_hubspot_Ok u o w l w' :
  get_items_hubspot u o w = (Ok l, w') ->
  exists tok cs ds,
    authorized w tok /\
    items_of contact_item (provider (contacts_request tok)) = Ok cs /\
    items_of company_item (provider (companies_request tok)) = Ok ds /\
    l = cs ++ ds /\ l <> [] /\
    w' = logged w [contacts_request tok; companies_request tok].
Proof.
  intros H.
  assert (exists tok, authorized w tok) as [tok Hauth].
  { unfold get_items_hubspot in H. unfold bind at 1 in H.
    rewrite credentials_run in H.
    destruct (TOKEN_STORAGE w !! "hubspot") as [c|] eqn:Hc; [|discriminate].
    destruct (truthy c) eqn:Ht; [|discriminate].
    rewrite Ht in H. simpl negb in H. cbv iota in H.
    unfold bind at 1 in H. unfold ret at 1 in H.
    unfold bind at 1 in H. unfold lift at 1 in H.
    destruct (py_getitem c "access_token") as [tok|] eqn:Htok; [|discriminate].
    exists tok, c. auto. }
  rewrite (get_items_hubspot_run u o w tok Hauth) in H.
  destruct (items_of contact_item _) as [cs|] eqn:Hcs; [|discriminate].
  destruct (items_of company_item _) as [ds|] eqn:Hds; [|discriminate].
  revert H. destruct (cs ++ ds) as [|x l0] eqn:E; intros H; [discriminate|].
  injection H as <- <-. exists tok, cs, ds. rewrite E.
  split; [exact Hauth|]. split; [exact Hcs|]. split; [exact Hds|].
  split; [reflexivity|].
  split; [discriminate|reflexivity].
Qed.

(** ** Properties of the item fetcher *)

(** C1 (amended): in every item returned by [get_items_hubspot] the
    field group that the type does not select is unset.  The type is
    "contact" or "company"; a contact has no website and no industry, a
    company has no email and no phone; so at most one of the two groups
    is populated. *)
Theorem returned_items_unselected_group_unset u o w l w' :
  get_items_hubspot u o w = (Ok l, w') ->
  Forall (fun i =>
            (type i = "contact" \/ type i = "company") /\
            (type i = "contact" -> website i = None /\ industry i = None) /\
            (type i = "company" -> email i = None /\ phone i = None) /\
            contact_group_populated i && company_group_populated i = false) l.
Proof.
  intros H. apply get_items_hubspot_Ok in H.
  destruct H as (tok & cs & ds & _ & Hcs & Hds & -> & _ & _).
  apply items_of_Ok in Hcs. destruct Hcs as (xs & _ & Hcs).
  apply items_of_Ok in Hds. destruct Hds as (ys & _ & Hds).
  apply Forall_app. split.
  - eapply Forall2_Forall_r; [exact Hcs|]. intros x i Hi. cbv beta in Hi.
    apply contact_item_Ok in Hi.
    destruct Hi as (d & p & _ & _ & _ & _ & Ht & _ & _ & Hw & Hi).
    unfold company_group_populated. rewrite Ht, Hw, Hi. simpl.
    rewrite andb_false_r. repeat split; auto; discriminate.
  - eapply Forall2_Forall_r; [exact Hds|]. intros x i Hi. cbv beta in Hi.
    apply company_item_Ok in Hi.
    destruct Hi as (d & p & _ & _ & _ & _ & Ht & _ & _ & He & Hp).
    unfold contact_group_populated. rewrite Ht, He, Hp. simpl.
    repeat split; auto; discriminate.
Qed.

(** C4: with a credential on file, a status other than 200 on one of the
    two GET requests raises nothing by itself.  That resource contributes
    no item, the other request is still sent and processed, and the
    outcome is the one of the other resource alone: its items, the error
    its own processing raises, or the 404 when it has no item either. *)
Theorem failed_resource_request_is_skipped u o w tok :
  authorized w tok ->
  let both := logged w [contacts_request tok; companies_request tok] in
  (status_code (provider (contacts_request tok)) <> 200 ->
   get_items_hubspot u o w =
     match items_of company_item (provider (companies_request tok)) with
     | Raise e => (Raise e, both)
     | Ok [] => (Raise (HTTPException 404 "No HubSpot items found"), both)
     | Ok ds => (Ok ds, both)
     end) /\
  (status_code (provider (companies_request tok)) <> 200 ->
   get_items_hubspot u o w =
     match items_of contact_item (provider (contacts_request tok)) with
     | Raise e => (Raise e, logged w [contacts_request tok])
     | Ok [] => (Raise (HTTPException 404 "No HubSpot items found"), both)
     | Ok cs => (Ok cs, both)
     end).
Proof.
  intros Hauth both. rewrite (get_items_hubspot_run u o w tok Hauth). split.
  - intros Hs. rewrite (items_of_skipped contact_item _ Hs). simpl app.
    destruct (items_of company_item _) as [[|d ds]|e]; reflexivity.
  - intros Hs. rewrite (items_of_skipped company_item _ Hs).
    destruct (items_of contact_item _) as [[|c cs]|e]; try reflexivity.
    now rewrite app_nil_r.
Qed.

(** C5: the list returned by [get_items_hubspot] is the items built from
    the elements of the contacts page, in the order of the page, followed
    by the items built from the elements of the companies page, in the
    order of the page; the former all have type "contact", the latter
    type "company". *)
Theorem contacts_precede_companies_in_page_order u o w l w' :
  get_items_hubspot u o w = (Ok l, w') ->
  exists tok contacts companies cs ds,
    authorized w tok /\
    page_results (provider (contacts_request tok)) = Ok contacts /\
    page_results (provider (companies_request tok)) = Ok companies /\
    l = cs ++ ds /\
    Forall2 (fun x i => contact_item x = Ok i) contacts cs /\
    Forall2 (fun x i => company_item x = Ok i) companies ds /\
    Forall (fun i => type i = "contact") cs /\
    Forall (fun i => type i = "company") ds.
Proof.
  intros H. apply get_items_hubspot_Ok in H.
  destruct H as (tok & cs & ds & Hauth & Hcs & Hds & -> & _ & _).
  apply items_of_Ok in Hcs. destruct Hcs as (xs & Hxs & Hcs).
  apply items_of_Ok in Hds. destruct Hds as (ys & Hys & Hds).
  exists tok, xs, ys, cs, ds. repeat (split; [assumption || reflexivity|]).
  split.
  - eapply Forall2_Forall_r; [exact Hcs|]. intros x i Hi. cbv beta in Hi.
    apply contact_item_Ok in Hi. destruct Hi as (d & p & Hi). tauto.
  - eapply Forall2_Forall_r; [exact Hds|]. intros x i Hi. cbv beta in Hi.
    apply company_item_Ok in Hi. destruct Hi as (d & p & Hi). tauto.
Qed.

(** The elements of a 200 page with a [results] array are the elements
    of that array, in order. *)
Lemma page_results_page l : page_results (page l) = Ok l.
Proof. reflexivity. Qed.

(** C6: with a credential on file, a contacts page holding the single
    contact [{"id":"1","properties":{"firstname":"A","lastname":"B",
    "email":"a@x.com"}}] and an empty companies page, the fetch returns
    exactly the item with id "1", name "A B", type "contact", email
    "a@x.com" and no phone.  In general the name of a contact item is the
    firstname part, a space, the lastname part, where the part of a
    missing field is the empty string and the part of a string field is
    that string. *)
Theorem contact_name_is_space_joined u o w tok :
  authorized w tok ->
  (provider (contacts_request tok) = page [sample_contact] ->
   provider (companies_request tok) = page [] ->
   fst (get_items_hubspot u o w) = Ok [sample_contact_item]) /\
  (forall contact i,
     contact_item contact = Ok i ->
     exists d p,
       contact = JObj d /\ assoc "properties" d = Some (JObj p) /\
       name i = name_part "firstname" p +:+ " " +:+ name_part "lastname" p) /\
  (forall k p, assoc k p = None -> name_part k p = "") /\
  (forall k p s, assoc k p = Some (JStr s) -> name_part k p = s).
Proof.
  intros Hauth. split; [|split; [|split]].
  - intros Hc Hd. rewrite (get_items_hubspot_run u o w tok Hauth), Hc, Hd.
    reflexivity.
  - intros contact i Hi. apply contact_item_Ok in Hi.
    destruct Hi as (d & p & Hi). exists d, p. tauto.
  - intros k p H. unfold name_part. now rewrite H.
  - intros k p s H. unfold name_part. now rewrite H.
Qed.

(** C10: every item of type "contact" returned by [get_items_hubspot]
    was built from an element of the contacts page, and its name is the
    firstname part, one space, the lastname part; so the name is never
    empty, and it is the one-space string when the properties object has
    neither a firstname nor a lastname. *)
Theorem contact_name_always_has_the_space u o w l w' :
  get_items_hubspot u o w = (Ok l, w') ->
  Forall (fun i =>
            type i = "contact" ->
            name i <> "" /\
            exists tok contacts d p,
              page_results (provider (contacts_request tok)) = Ok contacts /\
              In (JObj d) contacts /\
              contact_item (JObj d) = Ok i /\
              assoc "properties" d = Some (JObj p) /\
              name i = name_part "firstname" p +:+ " " +:+ name_part "lastname" p /\
              (assoc "firstname" p = None -> assoc "lastname" p = None ->
               name i = " ")) l.
Proof.
  intros H. apply get_items_hubspot_Ok in H.
  destruct H as (tok & cs & ds & _ & Hcs & Hds & -> & _ & _).
  apply items_of_Ok in Hcs. destruct Hcs as (xs & Hxs & Hcs).
  apply items_of_Ok in Hds. destruct Hds as (ys & _ & Hds).
  apply Forall_app. split.
  - apply List.Forall_forall. intros i Hin _.
    destruct (Forall2_In_r _ _ _ _ Hcs Hin) as (x & Hx & Hi).
    cbv beta in Hi. pose proof Hi as Hi'. apply contact_item_Ok in Hi'.
    destruct Hi' as (d & p & -> & Hp & _ & Hname & _). split.
    + rewrite Hname. destruct (name_part "firstname" p); discriminate.
    + exists tok, xs, d, p. repeat (split; [assumption|]).
      intros Hf Hl. rewrite Hname. unfold name_part. now rewrite Hf, Hl.
  - eapply Forall2_Forall_r; [exact Hds|]. intros x i Hi. cbv beta in Hi.
    apply company_item_Ok in Hi.
    destruct Hi as (d & p & _ & _ & _ & _ & Ht & _). rewrite Ht. discriminate.
Qed.

(** ** Properties of the token exchanger *)

Lemma query_get_absent k qp : ~ In k (map fst qp) -> query_get k qp = None.
Proof.
  induction qp as [|[k' v] qp IH]; simpl; [reflexivity|].
  intros H. rewrite IH by tauto.
  destruct (String.eqb_spec k k'); [|reflexivity]. subst. tauto.
Qed.

(** C2: when the callback carries a code and the token endpoint answers
    the POST with a status other than 200, the call raises an
    HTTPException with that very status, and [TOKEN_STORAGE] is what it
    was before the call; the POST is the only thing that happened. *)
Theorem failed_exchange_raises_upstream_status qp w code :
  query_get "code" qp = Some code ->
  code <> "" ->
  status_code (provider (token_request (Some code))) <> 200 ->
  oauth2callback_hubspot qp w =
    (Raise (HTTPException (status_code (provider (token_request (Some code))))
              "Failed to get access token"),
     logged w [token_request (Some code)]) /\
  TOKEN_STORAGE (snd (oauth2callback_hubspot qp w)) = TOKEN_STORAGE w.
Proof.
  intros Hcode Hne Hst.
  assert (oauth2callback_hubspot qp w =
    (Raise (HTTPException (status_code (provider (token_request (Some code))))
              "Failed to get access token"),
     logged w [token_request (Some code)])) as E.
  { unfold oauth2callback_hubspot. rewrite Hcode. simpl.
    apply String.eqb_neq in Hne. rewrite Hne. simpl.
    unfold bind, client_post. fold (token_request (Some code)).
    apply Z.eqb_neq in Hst. rewrite Hst. reflexivity. }
  split; [exact E|]. now rewrite E.
Qed.

(** C7: a callback whose query parameters have no [code] entry raises
    the 400 "Authorization code missing" and leaves the world as it was:
    nothing is sent, nothing is stored. *)
Theorem callback_without_code_is_rejected_offline qp w :
  ~ In "code" (map fst qp) ->
  oauth2callback_hubspot qp w =
    (Raise (HTTPException 400 "Authorization code missing"), w) /\
  sent (snd (oauth2callback_hubspot qp w)) = sent w.
Proof.
  intros H. unfold oauth2callback_hubspot.
  rewrite (query_get_absent _ _ H). simpl. split; reflexivity.
Qed.

(** ** Properties of the credential accessor *)

(** C8 (amended): [get_hubspot_credentials] raises the 401 exactly
    when nothing is stored under "hubspot" or the stored value is falsy
    (an empty object, null, ...); a stored truthy value is returned
    unchanged; the world is not modified; the arguments play no role. *)
Theorem credentials_missing_iff_absent_or_falsy u o w :
  (fst (get_hubspot_credentials u o w) =
     Raise (HTTPException 401 "Missing HubSpot credentials") <->
   TOKEN_STORAGE w !! "hubspot" = None \/
   exists c, TOKEN_STORAGE w !! "hubspot" = Some c /\ truthy c = false) /\
  (forall c, TOKEN_STORAGE w !! "hubspot" = Some c -> truthy c = true ->
             get_hubspot_credentials u o w = (Ok c, w)) /\
  snd (get_hubspot_credentials u o w) = w /\
  (forall u' o', get_hubspot_credentials u' o' w = get_hubspot_credentials u o w).
Proof.
  rewrite credentials_run. simpl. split; [|split; [|split]].
  - destruct (TOKEN_STORAGE w !! "hubspot") as [c|] eqn:Hc.
    + destruct (truthy c) eqn:Ht; split.
      * discriminate.
      * intros [?|(c' & [= <-] & ?)]; congruence.
      * intros _. right. eauto.
      * reflexivity.
    + split; auto.
  - intros c -> ->. reflexivity.
  - reflexivity.
  - intros u' o'. now rewrite credentials_run.
Qed.

(** ** Properties of the authorization URL *)

Lemma append_nil (b : string) : "" +:+ b = b.
Proof. reflexivity. Qed.

Lemma append_cons x (a b : string) : String x a +:+ b = String x (a +:+ b).
Proof. reflexivity. Qed.

Lemma append_assoc (a b c : string) : (a +:+ b) +:+ c = a +:+ (b +:+ c).
Proof.
  induction a as [|x a IH]; [reflexivity|].
  now rewrite !append_cons, IH.
Qed.

Lemma occurs_append sep a b :
  occurs sep (a +:+ b) = occurs sep a || occurs sep b.
Proof.
  induction a as [|x a IH]; [reflexivity|].
  rewrite append_cons. simpl. rewrite IH. now rewrite orb_assoc.
Qed.

Lemma cut_append sep a b :
  occurs sep a = false -> cut sep (a +:+ String sep b) = (a, b).
Proof.
  induction a as [|x a IH].
  - intros _. rewrite append_nil. simpl. now rewrite Ascii.eqb_refl.
  - simpl occurs. intros H. apply orb_false_elim in H. destruct H as [Hx Ha].
    rewrite append_cons. simpl. rewrite Hx, (IH Ha). reflexivity.
Qed.

Lemma split_on_clean sep a : occurs sep a = false -> split_on sep a = [a].
Proof.
  induction a as [|x a IH]; simpl; [reflexivity|].
  intros H. apply orb_false_elim in H. destruct H as [Hx Ha].
  rewrite Hx, (IH Ha). reflexivity.
Qed.

Lemma split_on_append sep a b :
  occurs sep a = false ->
  split_on sep (a +:+ String sep b) = a :: split_on sep b.
Proof.
  induction a as [|x a IH].
  - intros _. rewrite append_nil. simpl. now rewrite Ascii.eqb_refl.
  - simpl occurs. intros H. apply orb_false_elim in H. destruct H as [Hx Ha].
    rewrite append_cons. simpl. rewrite Hx, (IH Ha). reflexivity.
Qed.

(** A quoted byte is the byte itself, a plus sign or a percent triple:
    it holds no [&] and no [=], and unquoting gives the byte back. *)
Lemma quote_byte_clean c :
  occurs "&"%char (quote_byte c) = false /\
  occurs "="%char (quote_byte c) = false.
Proof. destruct c as [[] [] [] [] [] [] [] []]; split; reflexivity. Qed.

Lemma unquote_quote_byte c rest :
  unquote_plus (quote_byte c +:+ rest) = String c (unquote_plus rest).
Proof. destruct c as [[] [] [] [] [] [] [] []]; reflexivity. Qed.

Lemma quote_plus_clean s :
  occurs "&"%char (quote_plus s) = false /\
  occurs "="%char (quote_plus s) = false.
Proof.
  induction s as [|c s [IH1 IH2]]; simpl; [split; reflexivity|].
  rewrite !occurs_append, IH1, IH2.
  destruct (quote_byte_clean c) as [-> ->]. split; reflexivity.
Qed.

Lemma unquote_plus_quote_plus s : unquote_plus (quote_plus s) = s.
Proof.
  induction s as [|c s IH]; simpl; [reflexivity|].
  now rewrite unquote_quote_byte, IH.
Qed.

Lemma encode_pair_decoded kv :
  (let (k, v) := cut "="%char (encode_pair kv) in
   (unquote_plus k, unquote_plus v)) = kv.
Proof.
  destruct kv as [k v]. unfold encode_pair. simpl fst. simpl snd.
  change ("=" +:+ quote_plus v) with (String "="%char (quote_plus v)).
  rewrite cut_append by apply quote_plus_clean.
  now rewrite !unquote_plus_quote_plus.
Qed.

Lemma encode_pair_clean kv : occurs "&"%char (encode_pair kv) = false.
Proof.
  unfold encode_pair. rewrite !occurs_append.
  rewrite (proj1 (quote_plus_clean (fst kv))), (proj1 (quote_plus_clean (snd kv))).
  reflexivity.
Qed.

Lemma encode_pair_nonempty kv : encode_pair kv <> "".
Proof.
  unfold encode_pair. destruct (quote_plus (fst kv)); discriminate.
Qed.

Lemma split_urlencode kv params :
  split_on "&"%char (join "&" (map encode_pair (kv :: params))) =
  map encode_pair (kv :: params).
Proof.
  revert kv. induction params as [|kv' params IH]; intros kv.
  - simpl. apply split_on_clean, encode_pair_clean.
  - change (join "&" (map encode_pair (kv :: kv' :: params)))
      with (encode_pair kv +:+ String "&"%char (join "&" (map encode_pair (kv' :: params)))).
    rewrite split_on_append by apply encode_pair_clean.
    rewrite IH. reflexivity.
Qed.

(** [urlencode] loses nothing: the pairs read back from its output are
    the pairs it was given. *)
Lemma query_pairs_urlencode params : query_pairs (urlencode params) = params.
Proof.
  destruct params as [|kv params]; [reflexivity|].
  unfold urlencode. fold encode_pair. unfold query_pairs.
  destruct (join "&" (map encode_pair (kv :: params))) eqn:E.
  - exfalso. destruct params; simpl in E.
    + now apply (encode_pair_nonempty kv).
    + destruct (encode_pair kv) eqn:E'; [now apply (encode_pair_nonempty kv)|discriminate].
  - rewrite <- E, split_urlencode, map_map.
    rewrite <- (map_id (kv :: params)) at 2.
    apply List.map_ext. intros piece. apply encode_pair_decoded.
Qed.

(** C9: whatever the user and org ids, the authorization URL is the
    authorize endpoint, a question mark and a query string that reads
    back as exactly four parameters: client_id, redirect_uri, the fixed
    scope and response_type=code.  Each value is percent-encoded, so the
    URL has the explicit shape given second; the ids do not occur in it. *)
Theorem authorization_url_has_the_four_parameters user_id org_id :
  query_pairs (query_of_url (authorize_hubspot user_id org_id)) =
    [ ("client_id", str_of_env HUBSPOT_CLIENT_ID);
      ("redirect_uri", str_of_env HUBSPOT_REDIRECT_URI);
      ("scope", "crm.objects.contacts.read crm.objects.companies.read");
      ("response_type", "code") ] /\
  authorize_hubspot user_id org_id =
    "https://app.hubspot.com/oauth/authorize?client_id="
    +:+ quote_plus (str_of_env HUBSPOT_CLIENT_ID)
    +:+ "&redirect_uri=" +:+ quote_plus (str_of_env HUBSPOT_REDIRECT_URI)
    +:+ "&scope=crm.objects.contacts.read+crm.objects.companies.read"
    +:+ "&response_type=code" /\
  (forall user_id' org_id',
     authorize_hubspot user_id' org_id' = authorize_hubspot user_id org_id).
Proof.
  split; [|split].
  - unfold authorize_hubspot, query_of_url.
    change (HUBSPOT_AUTH_URL +:+ "?" +:+ ?q)
      with (HUBSPOT_AUTH_URL +:+ String "?"%char q).
    rewrite cut_append by reflexivity. simpl snd.
    apply query_pairs_urlencode.
  - unfold authorize_hubspot, urlencode. simpl.
    rewrite !append_assoc. reflexivity.
  - reflexivity.
Qed.

(** ** More on the token exchanger *)

(** Every path through [oauth2callback_hubspot]. *)
Lemma oauth2callback_run qp w :
  oauth2callback_hubspot qp w =
  match query_get "code" qp with
  | None => (Raise (HTTPException 400 "Authorization code missing"), w)
  | Some c =>
      if String.eqb c "" then
        (Raise (HTTPException 400 "Authorization code missing"), w)
      else
        let rq := token_request (Some c) in
        if status_code (provider rq) =? 200 then
          match body (provider rq) with
          | Some tokens => (Ok success_message, exchanged w tokens rq)
          | None => (Raise JSONDecodeError, logged w [rq])
          end
        else
          (Raise (HTTPException (status_code (provider rq))
                    "Failed to get access token"), logged w [rq])
  end.
Proof.
  unfold oauth2callback_hubspot.
  destruct (query_get "code" qp) as [c|]; [|reflexivity].
  simpl. destruct (String.eqb c ""); [reflexivity|].
  simpl. unfold bind at 1. unfold client_post at 1. cbv beta iota.
  fold (token_request (Some c)).
  destruct (status_code (provider (token_request (Some c))) =? 200);
    [|reflexivity].
  simpl. unfold bind, lift, response_json.
  destruct (body (provider (token_request (Some c)))); reflexivity.
Qed.

(** X1: a callback with a code whose POST is answered 200 with a JSON
    body returns the success message, stores that body under "hubspot",
    leaves every other key as it was, and has sent the one POST. *)
Theorem successful_exchange_stores_response_body qp w code tokens :
  query_get "code" qp = Some code ->
  code <> "" ->
  status_code (provider (token_request (Some code))) = 200 ->
  body (provider (token_request (Some code))) = Some tokens ->
  oauth2callback_hubspot qp w =
    (Ok success_message, exchanged w tokens (token_request (Some code))) /\
  TOKEN_STORAGE (snd (oauth2callback_hubspot qp w)) !! "hubspot" = Some tokens /\
  (forall k, k <> "hubspot" ->
     TOKEN_STORAGE (snd (oauth2callback_hubspot qp w)) !! k = TOKEN_STORAGE w !! k).
Proof.
  intros Hc Hne Hs Hb. rewrite oauth2callback_run, Hc.
  apply String.eqb_neq in Hne. rewrite Hne. cbv zeta.
  rewrite Hs, Hb. simpl. split; [reflexivity|]. split.
  - apply lookup_insert_eq.
  - intros k Hk. apply lookup_insert_ne. congruence.
Qed.

(** X2: a callback whose code is the empty string ([?code=]) is rejected
    like one without a code: the 400 is raised, nothing is sent, nothing
    is stored. *)
Theorem callback_with_empty_code_is_rejected_offline qp w :
  query_get "code" qp = Some "" ->
  oauth2callback_hubspot qp w =
    (Raise (HTTPException 400 "Authorization code missing"), w).
Proof. intros H. rewrite oauth2callback_run, H. reflexivity. Qed.

(** X3: when the token endpoint answers 200 with a body that is not JSON,
    [response.json()] raises after the POST and before line 60: the store
    is unchanged. *)
Theorem exchange_with_unparsable_body_stores_nothing qp w code :
  query_get "code" qp = Some code ->
  code <> "" ->
  status_code (provider (token_request (Some code))) = 200 ->
  body (provider (token_request (Some code))) = None ->
  oauth2callback_hubspot qp w =
    (Raise JSONDecodeError, logged w [token_request (Some code)]) /\
  TOKEN_STORAGE (snd (oauth2callback_hubspot qp w)) = TOKEN_STORAGE w.
Proof.
  intros Hc Hne Hs Hb. rewrite oauth2callback_run, Hc.
  apply String.eqb_neq in Hne. rewrite Hne. cbv zeta.
  rewrite Hs, Hb. simpl. split; reflexivity.
Qed.

(** X4: whatever the request and the provider, a callback that raises
    leaves [TOKEN_STORAGE] as it was, a callback that returns has written
    exactly the key "hubspot", and at most one request is sent: the POST to
    the token endpoint carrying the callback's code. *)
Theorem callback_writes_only_on_success qp w :
  match fst (oauth2callback_hubspot qp w) with
  | Raise _ => TOKEN_STORAGE (snd (oauth2callback_hubspot qp w)) = TOKEN_STORAGE w
  | Ok v =>
      v = success_message /\
      exists tokens,
        TOKEN_STORAGE (snd (oauth2callback_hubspot qp w))
        = <["hubspot" := tokens]> (TOKEN_STORAGE w)
  end /\
  (sent (snd (oauth2callback_hubspot qp w)) = sent w \/
   exists code,
     query_get "code" qp = Some code /\
     sent (snd (oauth2callback_hubspot qp w)) = sent w ++ [token_request (Some code)]).
Proof.
  rewrite oauth2callback_run.
  destruct (query_get "code" qp) as [c|]; [|simpl; auto].
  destruct (String.eqb c ""); [simpl; auto|]. cbv zeta.
  destruct (status_code (provider (token_request (Some c))) =? 200).
  - destruct (body (provider (token_request (Some c)))) as [tokens|]; simpl.
    + split; [split; [reflexivity|now exists tokens]|]. right. now exists c.
    + split; [reflexivity|]. right. now exists c.
  - simpl. split; [reflexivity|]. right. now exists c.
Qed.

(** X5: the callback raises the 400 "Authorization code missing" exactly
    when the request has no code or an empty one; every other HTTPException
    it raises carries the status the token endpoint answered, which is not
    200. *)
Theorem callback_http_errors qp w :
  (fst (oauth2callback_hubspot qp w)
     = Raise (HTTPException 400 "Authorization code missing") <->
   query_get "code" qp = None \/ query_get "code" qp = Some "") /\
  (forall s d,
     fst (oauth2callback_hubspot qp w) = Raise (HTTPException s d) ->
     d <> "Authorization code missing" ->
     d = "Failed to get access token" /\ s <> 200 /\
     exists code,
       query_get "code" qp = Some code /\
       s = status_code (provider (token_request (Some code)))).
Proof.
  rewrite oauth2callback_run.
  destruct (query_get "code" qp) as [c|].
  2:{ simpl. split; [split; auto|]. intros s d [= <- <-] Hd. congruence. }
  destruct (String.eqb_spec c "") as [->|Hne].
  { simpl. split; [split; auto|]. intros s d [= <- <-] Hd. congruence. }
  cbv zeta.
  destruct (status_code (provider (token_request (Some c))) =? 200) eqn:Hs.
  - destruct (body (provider (token_request (Some c)))); simpl;
      (split; [split; [discriminate|intros [?|?]; congruence]|discriminate]).
  - simpl. apply Z.eqb_neq in Hs. split.
    + split; [discriminate|intros [?|?]; congruence].
    + intros s d [= <- <-] _. split; [reflexivity|]. split; [exact Hs|].
      now exists c.
Qed.

(** X6: a second successful exchange replaces the credential of the
    first: the store is the one the second exchange alone would have
    produced. *)
Theorem second_exchange_replaces_first qp1 qp2 w c1 c2 t1 t2 :
  query_get "code" qp1 = Some c1 -> c1 <> "" ->
  query_get "code" qp2 = Some c2 -> c2 <> "" ->
  provider (token_request (Some c1)) = ok_body t1 ->
  provider (token_request (Some c2)) = ok_body t2 ->
  let w1 := snd (oauth2callback_hubspot qp1 w) in
  let w2 := snd (oauth2callback_hubspot qp2 w1) in
  TOKEN_STORAGE w2 = TOKEN_STORAGE (snd (oauth2callback_hubspot qp2 w)) /\
  TOKEN_STORAGE w2 !! "hubspot" = Some t2 /\
  sent w2 = sent w ++ [token_request (Some c1); token_request (Some c2)].
Proof.
  intros H1 N1 H2 N2 P1 P2 w1 w2. subst w1 w2.
  apply String.eqb_neq in N1, N2.
  rewrite !oauth2callback_run, H1, H2, N1, N2. cbv zeta.
  rewrite P1, P2. simpl. split; [|split].
  - apply insert_insert_eq.
  - apply lookup_insert_eq.
  - now rewrite <- app_assoc.
Qed.

(** X7: after a successful exchange whose body is truthy, the credential
    accessor returns that body, whatever ids it is given. *)
Theorem exchange_then_credentials_round_trip qp w code tokens u o :
  query_get "code" qp = Some code ->
  code <> "" ->
  provider (token_request (Some code)) = ok_body tokens ->
  truthy tokens = true ->
  fst (get_hubspot_credentials u o (snd (oauth2callback_hubspot qp w))) = Ok tokens.
Proof.
  intros Hc Hne Hp Ht. apply String.eqb_neq in Hne.
  rewrite oauth2callback_run, Hc, Hne. cbv zeta. rewrite Hp. simpl.
  rewrite credentials_run. simpl. rewrite lookup_insert_eq, Ht. reflexivity.
Qed.

(** ** More on the item fetcher *)

Lemma authorized_after_exchange w tokens rq tok :
  py_getitem tokens "access_token" = Ok tok ->
  authorized (exchanged w tokens rq) tok.
Proof.
  intros H. exists tokens. split; [apply lookup_insert_eq|exact H].
Qed.

Lemma init_Raise a b c d e f g x :
  IntegrationItem_init a b c d e f g = Raise x -> x = ValidationError.
Proof.
  unfold IntegrationItem_init.
  destruct (str_validator a), (str_validator b), (str_validator c),
    (optional_str_validator d), (optional_str_validator e),
    (optional_str_validator f), (optional_str_validator g);
    congruence.
Qed.

Lemma contact_item_Raise x e : contact_item x = Raise e -> is_http e = false.
Proof.
  unfold contact_item.
  destruct x as [| | | | |?|d]; try (intros [= <-]; reflexivity).
  simpl. destruct (assoc "properties" d) as [props|];
    [|intros [= <-]; reflexivity].
  simpl. destruct props as [| | | | |?|p]; try (intros [= <-]; reflexivity).
  simpl. intros H. apply init_Raise in H. now subst.
Qed.

Lemma company_item_Raise x e : company_item x = Raise e -> is_http e = false.
Proof.
  unfold company_item.
  destruct x as [| | | | |?|d]; try (intros [= <-]; reflexivity).
  simpl. destruct (assoc "properties" d) as [props|];
    [|intros [= <-]; reflexivity].
  simpl. destruct props as [| | | | |?|p]; try (intros [= <-]; reflexivity).
  simpl. intros H. apply init_Raise in H. now subst.
Qed.

Lemma rmap_Raise {A B} (f : A -> result B) l e :
  rmap f l = Raise e -> exists x, In x l /\ f x = Raise e.
Proof.
  induction l as [|x l IH]; simpl; [discriminate|].
  destruct (f x) as [y|e'] eqn:Hx; simpl.
  - destruct (rmap f l) as [ys|e'']; simpl; [discriminate|].
    intros [= <-]. destruct (IH eq_refl) as (x' & ? & ?). exists x'. auto.
  - intros [= <-]. exists x. auto.
Qed.

Lemma rmap_stops {A B} (f : A -> result B) pre x post ys e :
  rmap f pre = Ok ys -> f x = Raise e -> rmap f (pre ++ x :: post) = Raise e.
Proof.
  revert ys. induction pre as [|a pre IH]; simpl; intros ys Hpre Hx.
  - now rewrite Hx.
  - destruct (f a); [|discriminate]. simpl in *.
    destruct (rmap f pre) as [ys'|]; [|discriminate].
    now rewrite (IH ys' eq_refl Hx).
Qed.

Lemma page_results_Raise r e : page_results r = Raise e -> is_http e = false.
Proof.
  unfold page_results. destruct (status_code r =? 200); [|discriminate].
  unfold response_json. destruct (body r) as [v|]; simpl;
    [|intros [= <-]; reflexivity].
  destruct v as [| | | | |?|d]; simpl; try (intros [= <-]; reflexivity).
  destruct (dict_get "results" d (JArr [])); simpl;
    try discriminate; intros [= <-]; reflexivity.
Qed.

Lemma items_of_Raise mk r e :
  (forall x e', mk x = Raise e' -> is_http e' = false) ->
  items_of mk r = Raise e -> is_http e = false.
Proof.
  intros Hmk. unfold items_of.
  destruct (page_results r) as [elems|e'] eqn:Hp; simpl.
  - intros H. apply rmap_Raise in H. destruct H as (x & _ & Hx). eauto.
  - intros [= <-]. eapply page_results_Raise; eauto.
Qed.

(** What a fetch does when no usable credential is on file. *)
Lemma get_items_hubspot_unauthorized u o w :
  (forall tok, ~ authorized w tok) ->
  get_items_hubspot u o w =
  (match TOKEN_STORAGE w !! "hubspot" with
   | Some c =>
       if truthy c then
         match c with
         | JObj _ => Raise (KeyError "access_token")
         | _ => Raise TypeError
         end
       else Raise (HTTPException 401 "Missing HubSpot credentials")
   | None => Raise (HTTPException 401 "Missing HubSpot credentials")
   end, w).
Proof.
  intros Hno. unfold get_items_hubspot. unfold bind at 1.
  rewrite credentials_run.
  destruct (TOKEN_STORAGE w !! "hubspot") as [c|] eqn:Hc; [|reflexivity].
  destruct (truthy c) eqn:Ht; [|reflexivity].
  rewrite Ht. simpl negb. cbv iota.
  unfold bind at 1. unfold ret at 1. unfold bind at 1. unfold lift at 1.
  destruct (py_getitem c "access_token") as [tok|e] eqn:Htok.
  - exfalso. apply (Hno tok). exists c. auto.
  - f_equal. destruct c; simpl in Htok; try congruence.
    destruct (assoc "access_token" fields); congruence.
Qed.

Lemma authorized_dec w :
  (exists tok, authorized w tok) \/ (forall tok, ~ authorized w tok).
Proof.
  destruct (TOKEN_STORAGE w !! "hubspot") as [c|] eqn:Hc.
  - destruct (py_getitem c "access_token") as [tok|e] eqn:Ht.
    + left. exists tok, c. auto.
    + right. intros tok (c' & Hc' & Ht'). congruence.
  - right. intros tok (c' & Hc' & _). congruence.
Qed.

(** C3 (amended): with a credential on file, when neither response
    contributes an element (each has a status other than 200 or an empty
    [results] array) the fetch raises the 404 "No HubSpot items found".
    When both pages are processed without an error and give at least one
    item, the fetch returns the combined list.  An error raised while a
    page is processed is what the fetch raises, even if items were built
    before it.  The 404 is raised only when both pages were processed and
    gave no item, so never once an item has been produced. *)
Theorem no_items_found_exactly_when_nothing_produced u o w tok :
  authorized w tok ->
  let contacts := items_of contact_item (provider (contacts_request tok)) in
  let companies := items_of company_item (provider (companies_request tok)) in
  let outcome := fst (get_items_hubspot u o w) in
  (contributes_nothing (provider (contacts_request tok)) ->
   contributes_nothing (provider (companies_request tok)) ->
   outcome = Raise (HTTPException 404 "No HubSpot items found")) /\
  (forall cs ds,
     contacts = Ok cs -> companies = Ok ds -> cs ++ ds <> [] ->
     outcome = Ok (cs ++ ds)) /\
  (forall e, contacts = Raise e -> outcome = Raise e) /\
  (forall cs e, contacts = Ok cs -> companies = Raise e -> outcome = Raise e) /\
  (outcome = Raise (HTTPException 404 "No HubSpot items found") <->
   contacts = Ok [] /\ companies = Ok []).
Proof.
  intros Hauth contacts companies outcome. subst contacts companies outcome.
  rewrite (get_items_hubspot_run u o w tok Hauth).
  split; [|split; [|split; [|split]]].
  - intros Hc Hd.
    now rewrite (items_of_nothing _ _ Hc), (items_of_nothing _ _ Hd).
  - intros cs ds -> -> Hne. destruct (cs ++ ds); [congruence|reflexivity].
  - intros e ->. reflexivity.
  - intros cs e -> ->. reflexivity.
  - destruct (items_of contact_item _) as [cs|e] eqn:Hcs.
    + destruct (items_of company_item _) as [ds|e] eqn:Hds.
      * destruct cs as [|c cs]; [destruct ds as [|x ds]|]; simpl; split;
          try discriminate; try (intros [? ?]; discriminate); auto.
      * simpl. split; [|intros [_ ?]; discriminate].
        intros [= ->].
        apply (items_of_Raise _ _ _ company_item_Raise) in Hds. discriminate.
    + simpl. split; [|intros [? _]; discriminate].
      intros [= ->].
      apply (items_of_Raise _ _ _ contact_item_Raise) in Hcs. discriminate.
Qed.

(** X8: after a successful exchange whose body has an [access_token], the
    first request of a fetch is the GET of the contacts URL with the
    header [Authorization: Bearer] followed by that token. *)
Theorem exchange_then_fetch_sends_the_new_token qp w code tokens tok u o :
  query_get "code" qp = Some code ->
  code <> "" ->
  provider (token_request (Some code)) = ok_body tokens ->
  py_getitem tokens "access_token" = Ok tok ->
  exists rest,
    sent (snd (get_items_hubspot u o (snd (oauth2callback_hubspot qp w))))
    = sent w ++ token_request (Some code)
        :: GET HUBSPOT_CONTACTS_URL
             [("Authorization", "Bearer " +:+ format_value tok)]
        :: rest.
Proof.
  intros Hc Hne Hp Ht. apply String.eqb_neq in Hne.
  rewrite oauth2callback_run, Hc, Hne. cbv zeta. rewrite Hp. simpl snd.
  rewrite (get_items_hubspot_run u o _ tok
             (authorized_after_exchange w tokens _ tok Ht)).
  fold (bearer tok). fold (contacts_request tok).
  destruct (items_of contact_item _) as [cs|e].
  - destruct (items_of company_item _) as [ds|e];
      exists [companies_request tok]; simpl; now rewrite <- app_assoc.
  - exists []. simpl. now rewrite <- app_assoc.
Qed.

(** X9: with nothing stored under "hubspot", or a falsy value stored, a
    fetch raises the accessor's 401 and sends no request. *)
Theorem fetch_without_credentials_sends_nothing u o w :
  (TOKEN_STORAGE w !! "hubspot" = None \/
   exists c, TOKEN_STORAGE w !! "hubspot" = Some c /\ truthy c = false) ->
  get_items_hubspot u o w =
    (Raise (HTTPException 401 "Missing HubSpot credentials"), w).
Proof.
  intros H. rewrite get_items_hubspot_unauthorized.
  - destruct H as [->|(c & -> & ->)]; reflexivity.
  - intros tok (c & Hc & Ht). apply getitem_truthy in Ht.
    destruct H as [H|(c' & H & Hf)]; congruence.
Qed.

(** X10: a stored credential without an [access_token] makes the fetch
    fail at line 81 before any request: a non-empty object lacking the key
    raises [KeyError], a truthy value that is not an object raises
    [TypeError]. *)
Theorem fetch_with_tokenless_credentials_sends_nothing u o w c :
  TOKEN_STORAGE w !! "hubspot" = Some c ->
  truthy c = true ->
  (forall d, c = JObj d -> assoc "access_token" d = None) ->
  get_items_hubspot u o w =
    (match c with
     | JObj _ => Raise (KeyError "access_token")
     | _ => Raise TypeError
     end, w).
Proof.
  intros Hc Ht Hd. rewrite get_items_hubspot_unauthorized.
  - now rewrite Hc, Ht.
  - intros tok (c' & Hc' & Htok). rewrite Hc in Hc'. injection Hc' as <-.
    destruct c; simpl in Htok; try discriminate.
    now rewrite (Hd _ eq_refl) in Htok.
Qed.

(** X11: a fetch never writes [TOKEN_STORAGE], and it sends nothing, the
    contacts GET alone, or the contacts GET followed by the companies GET,
    both with the same header. *)
Theorem fetch_reads_only u o w :
  TOKEN_STORAGE (snd (get_items_hubspot u o w)) = TOKEN_STORAGE w /\
  (sent (snd (get_items_hubspot u o w)) = sent w \/
   exists tok,
     authorized w tok /\
     (sent (snd (get_items_hubspot u o w)) = sent w ++ [contacts_request tok] \/
      sent (snd (get_items_hubspot u o w))
      = sent w ++ [contacts_request tok; companies_request tok])).
Proof.
  destruct (authorized_dec w) as [[tok Hauth]|Hno].
  - rewrite (get_items_hubspot_run u o w tok Hauth).
    destruct (items_of contact_item _) as [cs|e].
    + destruct (items_of company_item _) as [ds|e]; simpl;
        (split; [reflexivity|right; exists tok; auto]).
    + simpl. split; [reflexivity|right; exists tok; auto].
  - rewrite (get_items_hubspot_unauthorized u o w Hno). simpl. auto.
Qed.

(** X12: the only HTTPExceptions a fetch raises are the accessor's 401,
    before any request, and the 404, exactly when both resources
    contributed no item.  The status of a provider response is never
    raised, and the 401 of line 79 is never reached. *)
Theorem fetch_http_errors_are_401_or_404 u o w s d :
  fst (get_items_hubspot u o w) = Raise (HTTPException s d) ->
  (s = 401 /\ d = "Missing HubSpot credentials" /\
   snd (get_items_hubspot u o w) = w) \/
  (s = 404 /\ d = "No HubSpot items found" /\
   exists tok,
     authorized w tok /\
     items_of contact_item (provider (contacts_request tok)) = Ok [] /\
     items_of company_item (provider (companies_request tok)) = Ok []).
Proof.
  destruct (authorized_dec w) as [[tok Hauth]|Hno].
  - rewrite (get_items_hubspot_run u o w tok Hauth).
    destruct (items_of contact_item _) as [cs|e] eqn:Hcs.
    + destruct (items_of company_item _) as [ds|e] eqn:Hds.
      * destruct cs as [|c cs]; [destruct ds as [|x ds]|]; simpl;
          try discriminate.
        intros [= <- <-]. right. repeat split. exists tok. auto.
      * simpl. intros [= ->].
        apply (items_of_Raise _ _ _ company_item_Raise) in Hds. discriminate.
    + simpl. intros [= ->].
      apply (items_of_Raise _ _ _ contact_item_Raise) in Hcs. discriminate.
  - rewrite (get_items_hubspot_unauthorized u o w Hno). simpl.
    destruct (TOKEN_STORAGE w !! "hubspot") as [c|].
    + destruct (truthy c).
      * destruct c; discriminate.
      * intros [= <- <-]. left. auto.
    + intros [= <- <-]. left. auto.
Qed.

(** X13: a fetch never returns the empty list. *)
Theorem fetch_never_returns_empty_list u o w :
  fst (get_items_hubspot u o w) <> Ok [].
Proof.
  intros H.
  destruct (get_items_hubspot u o w) as [r w'] eqn:E. simpl in H. subst r.
  apply get_items_hubspot_Ok in E.
  destruct E as (_ & _ & _ & _ & _ & _ & _ & Hne & _). now apply Hne.
Qed.

(** X14: one element that raises aborts the whole fetch with that error.
    In the contacts page the items built before it are discarded and the
    companies URL is never requested; in the companies page the contacts
    already built are discarded too. *)
Theorem raising_element_aborts_fetch u o w tok pre x post ys e :
  authorized w tok ->
  (page_results (provider (contacts_request tok)) = Ok (pre ++ x :: post) ->
   rmap contact_item pre = Ok ys ->
   contact_item x = Raise e ->
   get_items_hubspot u o w = (Raise e, logged w [contacts_request tok])) /\
  (forall cs,
     items_of contact_item (provider (contacts_request tok)) = Ok cs ->
     page_results (provider (companies_request tok)) = Ok (pre ++ x :: post) ->
     rmap company_item pre = Ok ys ->
     company_item x = Raise e ->
     get_items_hubspot u o w
     = (Raise e, logged w [contacts_request tok; companies_request tok])).
Proof.
  intros Hauth. rewrite (get_items_hubspot_run u o w tok Hauth). split.
  - intros Hp Hpre Hx. unfold items_of at 1. rewrite Hp. simpl rbind.
    now rewrite (rmap_stops _ _ _ _ _ _ Hpre Hx).
  - intros cs -> Hp Hpre Hx. unfold items_of. rewrite Hp. simpl rbind.
    now rewrite (rmap_stops _ _ _ _ _ _ Hpre Hx).
Qed.

(** X15: an element that is not an object raises [AttributeError]; an
    object without a "properties" key raises [KeyError]; an object whose
    "properties" is not an object raises [AttributeError].  Contacts and
    companies alike. *)
Theorem element_shape_errors x :
  ((forall d, x <> JObj d) ->
   contact_item x = Raise AttributeError /\ company_item x = Raise AttributeError) /\
  (forall d, x = JObj d ->
     (assoc "properties" d = None ->
      contact_item x = Raise (KeyError "properties") /\
      company_item x = Raise (KeyError "properties")) /\
     (forall v, assoc "properties" d = Some v -> (forall p, v <> JObj p) ->
      contact_item x = Raise AttributeError /\
      company_item x = Raise AttributeError)).
Proof.
  split.
  - intros H. destruct x; try (split; reflexivity). now destruct (H fields).
  - intros d ->. unfold contact_item, company_item. simpl. split.
    + intros ->. split; reflexivity.
    + intros v -> Hv. destruct v; try (split; reflexivity).
      now destruct (Hv fields).
Qed.

(** X16: an element without an "id", or with a null one, is rejected by
    the model ([id] is a required str), whatever its other fields. *)
Theorem element_without_id_is_rejected d p :
  assoc "properties" d = Some (JObj p) ->
  dict_get "id" d JNull = JNull ->
  contact_item (JObj d) = Raise ValidationError /\
  company_item (JObj d) = Raise ValidationError.
Proof.
  intros Hp Hid. unfold contact_item, company_item. simpl.
  rewrite Hp, Hid. simpl. split; reflexivity.
Qed.

(** X17: a contact with a string id whose email and phone are each a
    string, null or absent always builds, and the item carries that id,
    the space-joined name, and those two values ([None] for null or
    absent). *)
Theorem contact_fields_are_copied d p i e ph :
  assoc "id" d = Some (JStr i) ->
  assoc "properties" d = Some (JObj p) ->
  field_text "email" p = Some e ->
  field_text "phone" p = Some ph ->
  contact_item (JObj d) =
    Ok {| id := i;
          name := name_part "firstname" p +:+ " " +:+ name_part "lastname" p;
          type := "contact"; email := e; phone := ph;
          website := None; industry := None |}.
Proof.
  intros Hid Hp He Hph. unfold contact_item. simpl. rewrite Hp. simpl.
  rewrite !format_default. unfold dict_get. rewrite Hid.
  unfold field_text in He, Hph. unfold IntegrationItem_init.
  destruct (assoc "email" p) as [[]|]; try discriminate;
    destruct (assoc "phone" p) as [[]|]; try discriminate;
    injection He as <-; injection Hph as <-; reflexivity.
Qed.

(** X18: a company with a string id, a string or absent name, and a
    website and industry that are each a string, null or absent always
    builds; the name is that string (empty when absent) and the two values
    are copied ([None] for null or absent). *)
Theorem company_fields_are_copied d p i n ws ind :
  assoc "id" d = Some (JStr i) ->
  assoc "properties" d = Some (JObj p) ->
  dict_get "name" p (JStr "") = JStr n ->
  field_text "website" p = Some ws ->
  field_text "industry" p = Some ind ->
  company_item (JObj d) =
    Ok {| id := i; name := n; type := "company"; email := None; phone := None;
          website := ws; industry := ind |}.
Proof.
  intros Hid Hp Hn Hw Hi. unfold company_item. simpl. rewrite Hp. simpl.
  rewrite Hn. unfold dict_get. rewrite Hid.
  unfold field_text in Hw, Hi. unfold IntegrationItem_init.
  destruct (assoc "website" p) as [[]|]; try discriminate;
    destruct (assoc "industry" p) as [[]|]; try discriminate;
    injection Hw as <-; injection Hi as <-; reflexivity.
Qed.

(** X19: the empty-string defaults apply to a missing key only.  A
    company whose "name" is present and null is rejected; a contact whose
    "firstname" is present and null gets the text None in its name. *)
Theorem null_is_not_defaulted d p :
  assoc "properties" d = Some (JObj p) ->
  (assoc "name" p = Some JNull ->
   company_item (JObj d) = Raise ValidationError) /\
  (assoc "firstname" p = Some JNull ->
   forall i, contact_item (JObj d) = Ok i ->
             name i = "None " +:+ name_part "lastname" p).
Proof.
  intros Hp. split.
  - intros Hn. unfold company_item. simpl. rewrite Hp. simpl.
    unfold dict_get at 2. rewrite Hn. unfold IntegrationItem_init. simpl.
    now destruct (str_validator (dict_get "id" d JNull)).
  - intros Hf i Hi. apply contact_item_Ok in Hi.
    destruct Hi as (d' & p' & [= <-] & Hp' & _ & Hname & _).
    rewrite Hp in Hp'. injection Hp' as <-.
    rewrite Hname. unfold name_part at 1. rewrite Hf. reflexivity.
Qed.

(** X20: a 200 response to the contacts request that cannot be iterated
    aborts the fetch before the companies request: a body that is not JSON
    raises [JSONDecodeError], a JSON value that is not an object raises
    [AttributeError], and a "results" that is null, a boolean or a number
    raises [TypeError]. *)
Theorem unusable_contacts_page_aborts_fetch u o w tok :
  authorized w tok ->
  status_code (provider (contacts_request tok)) = 200 ->
  let stop e := get_items_hubspot u o w = (Raise e, logged w [contacts_request tok]) in
  (body (provider (contacts_request tok)) = None -> stop JSONDecodeError) /\
  (forall v, body (provider (contacts_request tok)) = Some v ->
             (forall d, v <> JObj d) -> stop AttributeError) /\
  (forall d r, body (provider (contacts_request tok)) = Some (JObj d) ->
               assoc "results" d = Some r ->
               (r = JNull \/ (exists b, r = JBool b) \/
                (exists n, r = JInt n) \/ (exists x, r = JFloat x)) ->
               stop TypeError).
Proof.
  intros Hauth Hs stop. subst stop. cbv beta.
  rewrite (get_items_hubspot_run u o w tok Hauth).
  assert (items_of contact_item (provider (contacts_request tok))
          = let? elems :=
              (let? payload := response_json (provider (contacts_request tok)) in
               let? results := py_get payload "results" (JArr []) in
               py_iter results) in
            rmap contact_item elems) as ->.
  { unfold items_of, page_results. now rewrite Hs. }
  unfold response_json. split; [|split].
  - intros ->. reflexivity.
  - intros v -> Hv. destruct v; try reflexivity. now destruct (Hv fields).
  - intros d r -> Hr Hit. simpl. unfold dict_get. rewrite Hr.
    destruct Hit as [->|[[b ->]|[[n ->]|[x ->]]]]; reflexivity.
Qed.

(** ** More on the model and on the authorization URL *)


Lemma all_chars_append P a b :
  all_chars P (a +:+ b) = all_chars P a && all_chars P b.
Proof.
  induction a as [|x a IH]; [reflexivity|].
  rewrite append_cons. simpl. now rewrite IH, andb_assoc.
Qed.

Lemma quote_byte_safe c : all_chars query_safe (quote_byte c) = true.
Proof. destruct c as [[] [] [] [] [] [] [] []]; reflexivity. Qed.

Lemma quote_plus_safe s : all_chars query_safe (quote_plus s) = true.
Proof.
  induction s as [|c s IH]; [reflexivity|].
  simpl. now rewrite all_chars_append, quote_byte_safe, IH.
Qed.

(** X22: whatever the environment holds, the query string of the
    authorization URL is made of unreserved characters, percent, plus,
    ampersand and equals only, with exactly three ampersands: a value
    cannot break out of its parameter. *)
Theorem authorization_query_is_url_safe user_id org_id :
  all_chars query_safe (query_of_url (authorize_hubspot user_id org_id)) = true /\
  length (split_on "&"%char (query_of_url (authorize_hubspot user_id org_id))) = 4%nat.
Proof.
  unfold authorize_hubspot, query_of_url.
  change (HUBSPOT_AUTH_URL +:+ "?" +:+ ?q)
    with (HUBSPOT_AUTH_URL +:+ String "?"%char q).
  rewrite cut_append by reflexivity. simpl snd. split.
  - unfold urlencode. simpl.
    rewrite !all_chars_append, !quote_plus_safe. reflexivity.
  - unfold urlencode. fold encode_pair. rewrite split_urlencode. reflexivity.
Qed.

End Hubspot.

(** ** The properties at concrete inputs *)

Lemma sample_authorized : authorized (stored sample_credentials) (JStr "tok").
Proof. exists sample_credentials. split; reflexivity. Defined.

Lemma returned_items_unselected_group_unset_witness :
  let w := stored sample_credentials in
  let tok := JStr "tok" in
  let l := [sample_contact_item; sample_company_item] in
  let w' := logged w [contacts_request repr_unused tok; companies_request repr_unused tok] in
  get_items_hubspot repr_unused false
    (serve (page [sample_contact]) (page [sample_company])) "u" "o" w = (Ok l, w') /\
  Forall (fun i =>
            (type i = "contact" \/ type i = "company") /\
            (type i = "contact" -> website i = None /\ industry i = None) /\
            (type i = "company" -> email i = None /\ phone i = None) /\
            contact_group_populated i && company_group_populated i = false)
    l.
Proof.
  intros w tok l w'.
  assert (get_items_hubspot repr_unused false
            (serve (page [sample_contact]) (page [sample_company])) "u" "o" w
          = (Ok l, w')) as H by reflexivity.
  split; [exact H|].
  exact (returned_items_unselected_group_unset repr_unused false
           (serve (page [sample_contact]) (page [sample_company]))
           "u" "o" w l w' H).
Defined.

(** C1, as stated, fails: a contact without email and phone is returned
    with none of its four optional fields set, so neither group is
    populated. *)
Lemma exactly_one_group_fails_on_bare_contact :
  fst (get_items_hubspot repr_unused false (serve (page [bare_contact]) (page []))
         "u" "o" (stored sample_credentials)) = Ok [bare_contact_item] /\
  fst (get_items_hubspot repr_unused true (serve (page [bare_contact]) (page []))
         "u" "o" (stored sample_credentials)) = Ok [bare_contact_item] /\
  exactly_one_group_populated bare_contact_item = false.
Proof. repeat split; reflexivity. Qed.

Lemma failed_resource_request_is_skipped_witness :
  let w := stored sample_credentials in
  let tok := JStr "tok" in
  get_items_hubspot repr_unused false (serve (failed 500) (page [sample_company]))
    "u" "o" w
  = (Ok [sample_company_item],
     logged w [contacts_request repr_unused tok; companies_request repr_unused tok]) /\
  get_items_hubspot repr_unused false (serve (page [sample_contact]) (failed 429))
    "u" "o" w
  = (Ok [sample_contact_item],
     logged w [contacts_request repr_unused tok; companies_request repr_unused tok]).
Proof.
  intros w tok. split.
  - refine (eq_trans
      (proj1 (failed_resource_request_is_skipped repr_unused false
                (serve (failed 500) (page [sample_company])) "u" "o" w tok
                sample_authorized) _) _).
    + discriminate.
    + reflexivity.
  - refine (eq_trans
      (proj2 (failed_resource_request_is_skipped repr_unused false
                (serve (page [sample_contact]) (failed 429)) "u" "o" w tok
                sample_authorized) _) _).
    + discriminate.
    + reflexivity.
Defined.

Lemma contacts_precede_companies_in_page_order_witness :
  let w := stored sample_credentials in
  let prov := serve (page [bare_contact; sample_contact]) (page [sample_company]) in
  let l := [bare_contact_item; sample_contact_item; sample_company_item] in
  exists w',
    get_items_hubspot repr_unused false prov "u" "o" w = (Ok l, w') /\
    exists tok contacts companies cs ds,
      authorized w tok /\
      page_results (prov (contacts_request repr_unused tok)) = Ok contacts /\
      page_results (prov (companies_request repr_unused tok)) = Ok companies /\
      l = cs ++ ds /\
      Forall2 (fun x i => contact_item repr_unused false x = Ok i) contacts cs /\
      Forall2 (fun x i => company_item repr_unused false x = Ok i) companies ds /\
      Forall (fun i => type i = "contact") cs /\
      Forall (fun i => type i = "company") ds.
Proof.
  intros w prov l.
  exists (snd (get_items_hubspot repr_unused false prov "u" "o" w)).
  assert (get_items_hubspot repr_unused false prov "u" "o" w
          = (Ok l, snd (get_items_hubspot repr_unused false prov "u" "o" w)))
    as H by reflexivity.
  split; [exact H|].
  exact (contacts_precede_companies_in_page_order repr_unused false prov
           "u" "o" w l _ H).
Defined.

Lemma contact_name_is_space_joined_witness :
  fst (get_items_hubspot repr_unused false (serve (page [sample_contact]) (page []))
         "u" "o" (stored sample_credentials)) = Ok [sample_contact_item].
Proof.
  apply (proj1 (contact_name_is_space_joined repr_unused false
                  (serve (page [sample_contact]) (page [])) "u" "o"
                  (stored sample_credentials) (JStr "tok") sample_authorized));
    reflexivity.
Defined.

Lemma contact_name_always_has_the_space_witness :
  let w := stored sample_credentials in
  let prov := serve (page [bare_contact]) (page [sample_company]) in
  let l := [bare_contact_item; sample_company_item] in
  exists w',
    get_items_hubspot repr_unused false prov "u" "o" w = (Ok l, w') /\
    Forall (fun i =>
              type i = "contact" ->
              name i <> "" /\
              exists tok contacts d p,
                page_results (prov (contacts_request repr_unused tok)) = Ok contacts /\
                In (JObj d) contacts /\
                contact_item repr_unused false (JObj d) = Ok i /\
                assoc "properties" d = Some (JObj p) /\
                name i = name_part repr_unused "firstname" p +:+ " "
                         +:+ name_part repr_unused "lastname" p /\
                (assoc "firstname" p = None -> assoc "lastname" p = None ->
                 name i = " ")) l.
Proof.
  intros w prov l.
  exists (snd (get_items_hubspot repr_unused false prov "u" "o" w)).
  assert (get_items_hubspot repr_unused false prov "u" "o" w
          = (Ok l, snd (get_items_hubspot repr_unused false prov "u" "o" w)))
    as H by reflexivity.
  split; [exact H|].
  exact (contact_name_always_has_the_space repr_unused false prov
           "u" "o" w l _ H).
Defined.

Lemma failed_exchange_raises_upstream_status_witness :
  let prov := token_endpoint (failed 400) in
  let qp := [("code", "abc"); ("state", "xyz")] in
  oauth2callback_hubspot (Some "id") (Some "secret") None prov qp empty_world
  = (Raise (HTTPException 400 "Failed to get access token"),
     logged empty_world [token_request (Some "id") (Some "secret") None (Some "abc")]) /\
  TOKEN_STORAGE
    (snd (oauth2callback_hubspot (Some "id") (Some "secret") None prov qp empty_world))
  = TOKEN_STORAGE empty_world.
Proof.
  intros prov qp.
  apply (failed_exchange_raises_upstream_status (Some "id") (Some "secret") None
           prov qp empty_world "abc").
  - reflexivity.
  - discriminate.
  - discriminate.
Defined.

Lemma callback_without_code_is_rejected_offline_witness :
  let qp := [("state", "xyz"); ("error", "access_denied")] in
  oauth2callback_hubspot None None None (token_endpoint (ok_body sample_credentials))
    qp empty_world
  = (Raise (HTTPException 400 "Authorization code missing"), empty_world) /\
  sent (snd (oauth2callback_hubspot None None None
               (token_endpoint (ok_body sample_credentials)) qp empty_world))
  = sent empty_world.
Proof.
  intros qp.
  apply (callback_without_code_is_rejected_offline None None None
           (token_endpoint (ok_body sample_credentials)) qp empty_world).
  simpl. intros [H|[H|[]]]; discriminate H.
Defined.

Lemma credentials_missing_iff_absent_or_falsy_witness :
  get_hubspot_credentials "u" "o" (stored sample_credentials)
  = (Ok sample_credentials, stored sample_credentials).
Proof.
  apply (proj1 (proj2 (credentials_missing_iff_absent_or_falsy
                         "u" "o" (stored sample_credentials))));
    reflexivity.
Defined.

(** C8, as stated, fails: a token endpoint that answers 200 with the
    empty object leaves an entry under "hubspot", and the accessor still
    raises the 401. *)
Lemma stored_empty_credentials_are_reported_missing :
  let w := snd (oauth2callback_hubspot None None None
                  (token_endpoint (ok_body (JObj []))) [("code", "abc")] empty_world) in
  TOKEN_STORAGE w !! "hubspot" = Some (JObj []) /\
  fst (get_hubspot_credentials "u" "o" w)
  = Raise (HTTPException 401 "Missing HubSpot credentials").
Proof. split; reflexivity. Qed.

(** ** The further properties at concrete inputs *)

Lemma successful_exchange_stores_response_body_witness :
  let qp := [("code", "first"); ("state", "s")] in
  let run := oauth2callback_hubspot (Some "id") None None token_by_code qp empty_world in
  run = (Ok success_message,
         exchanged empty_world first_credentials
           (token_request (Some "id") None None (Some "first"))) /\
  TOKEN_STORAGE (snd run) !! "hubspot" = Some first_credentials /\
  (forall k, k <> "hubspot" ->
     TOKEN_STORAGE (snd run) !! k = TOKEN_STORAGE empty_world !! k).
Proof.
  intros qp run.
  apply (successful_exchange_stores_response_body (Some "id") None None
           token_by_code qp empty_world "first" first_credentials).
  - reflexivity.
  - discriminate.
  - reflexivity.
  - reflexivity.
Defined.

Lemma callback_with_empty_code_is_rejected_offline_witness :
  oauth2callback_hubspot None None None token_by_code [("code", "")] empty_world
  = (Raise (HTTPException 400 "Authorization code missing"), empty_world).
Proof.
  apply (callback_with_empty_code_is_rejected_offline None None None
           token_by_code [("code", "")] empty_world).
  reflexivity.
Defined.

Lemma exchange_with_unparsable_body_stores_nothing_witness :
  let w := stored sample_credentials in
  let run := oauth2callback_hubspot None None None (token_endpoint garbled)
               [("code", "abc")] w in
  run = (Raise JSONDecodeError,
         logged w [token_request None None None (Some "abc")]) /\
  TOKEN_STORAGE (snd run) = TOKEN_STORAGE w.
Proof.
  intros w run.
  apply (exchange_with_unparsable_body_stores_nothing None None None
           (token_endpoint garbled) [("code", "abc")] w "abc").
  - reflexivity.
  - discriminate.
  - reflexivity.
  - reflexivity.
Defined.

Lemma callback_http_errors_witness :
  "Failed to get access token" = "Failed to get access token" /\
  503 <> 200 /\
  exists code,
    query_get "code" [("code", "abc")] = Some code /\
    503 = status_code (token_endpoint (failed 503)
                         (token_request None None None (Some code))).
Proof.
  apply (proj2 (callback_http_errors None None None (token_endpoint (failed 503))
                  [("code", "abc")] empty_world) 503 "Failed to get access token").
  - reflexivity.
  - discriminate.
Defined.

Lemma second_exchange_replaces_first_witness :
  let qp1 := [("code", "first")] in
  let qp2 := [("code", "second")] in
  let w := empty_world in
  let w1 := snd (oauth2callback_hubspot None None None token_by_code qp1 w) in
  let w2 := snd (oauth2callback_hubspot None None None token_by_code qp2 w1) in
  TOKEN_STORAGE w2
  = TOKEN_STORAGE (snd (oauth2callback_hubspot None None None token_by_code qp2 w)) /\
  TOKEN_STORAGE w2 !! "hubspot" = Some second_credentials /\
  sent w2 = sent w ++ [token_request None None None (Some "first");
                       token_request None None None (Some "second")].
Proof.
  intros qp1 qp2 w.
  apply (second_exchange_replaces_first None None None token_by_code qp1 qp2 w
           "first" "second" first_credentials second_credentials).
  - reflexivity.
  - discriminate.
  - reflexivity.
  - discriminate.
  - reflexivity.
  - reflexivity.
Defined.

Lemma exchange_then_credentials_round_trip_witness :
  fst (get_hubspot_credentials "u" "o"
         (snd (oauth2callback_hubspot None None None token_by_code
                 [("code", "first")] empty_world)))
  = Ok first_credentials.
Proof.
  apply (exchange_then_credentials_round_trip None None None token_by_code
           [("code", "first")] empty_world "first" first_credentials "u" "o").
  - reflexivity.
  - discriminate.
  - reflexivity.
  - reflexivity.
Defined.

Lemma exchange_then_fetch_sends_the_new_token_witness :
  let w1 := snd (oauth2callback_hubspot None None None token_by_code
                   [("code", "first")] empty_world) in
  exists rest,
    sent (snd (get_items_hubspot repr_unused false token_by_code "u" "o" w1))
    = sent empty_world ++ token_request None None None (Some "first")
        :: GET HUBSPOT_CONTACTS_URL [("Authorization", "Bearer t1")]
        :: rest.
Proof.
  intros w1.
  apply (exchange_then_fetch_sends_the_new_token None None None repr_unused false
           token_by_code [("code", "first")] empty_world "first"
           first_credentials (JStr "t1") "u" "o").
  - reflexivity.
  - discriminate.
  - reflexivity.
  - reflexivity.
Defined.

Lemma fetch_without_credentials_sends_nothing_witness :
  get_items_hubspot repr_unused false (serve (page [sample_contact]) (page []))
    "u" "o" empty_world
  = (Raise (HTTPException 401 "Missing HubSpot credentials"), empty_world).
Proof.
  apply (fetch_without_credentials_sends_nothing repr_unused false
           (serve (page [sample_contact]) (page [])) "u" "o" empty_world).
  left. reflexivity.
Defined.

Lemma fetch_with_tokenless_credentials_sends_nothing_witness :
  let c := JObj [("refresh_token", JStr "r")] in
  get_items_hubspot repr_unused false (serve (page [sample_contact]) (page []))
    "u" "o" (stored c)
  = (Raise (KeyError "access_token"), stored c).
Proof.
  intros c.
  apply (fetch_with_tokenless_credentials_sends_nothing repr_unused false
           (serve (page [sample_contact]) (page [])) "u" "o" (stored c) c).
  - reflexivity.
  - reflexivity.
  - intros d [= <-]. reflexivity.
Defined.

Lemma fetch_http_errors_are_401_or_404_witness :
  let run := get_items_hubspot repr_unused false (serve (failed 500) (failed 502))
               "u" "o" (stored sample_credentials) in
  (404 = 401 /\ "No HubSpot items found" = "Missing HubSpot credentials" /\
   snd run = stored sample_credentials) \/
  (404 = 404 /\ "No HubSpot items found" = "No HubSpot items found" /\
   exists tok,
     authorized (stored sample_credentials) tok /\
     items_of (contact_item repr_unused false)
       (serve (failed 500) (failed 502) (contacts_request repr_unused tok)) = Ok [] /\
     items_of (company_item repr_unused false)
       (serve (failed 500) (failed 502) (companies_request repr_unused tok)) = Ok []).
Proof.
  intros run.
  apply (fetch_http_errors_are_401_or_404 repr_unused false
           (serve (failed 500) (failed 502)) "u" "o" (stored sample_credentials)
           404 "No HubSpot items found").
  reflexivity.
Defined.

Lemma raising_element_aborts_fetch_witness :
  let w := stored sample_credentials in
  get_items_hubspot repr_unused false
    (serve (page [sample_contact; JNull; bare_contact]) (page [sample_company]))
    "u" "o" w
  = (Raise AttributeError, logged w [contacts_request repr_unused (JStr "tok")]).
Proof.
  intros w.
  apply (proj1 (raising_element_aborts_fetch repr_unused false
                  (serve (page [sample_contact; JNull; bare_contact])
                     (page [sample_company]))
                  "u" "o" w (JStr "tok") [sample_contact] JNull [bare_contact]
                  [sample_contact_item] AttributeError sample_authorized));
    reflexivity.
Defined.

Lemma element_shape_errors_witness :
  contact_item repr_unused false (JStr "x") = Raise AttributeError /\
  company_item repr_unused false (JStr "x") = Raise AttributeError.
Proof.
  apply (proj1 (element_shape_errors repr_unused false (JStr "x"))).
  intros d. discriminate.
Defined.

Lemma element_without_id_is_rejected_witness :
  let d := [("properties", JObj [("email", JStr "a@x.com")])] in
  contact_item repr_unused true (JObj d) = Raise ValidationError /\
  company_item repr_unused true (JObj d) = Raise ValidationError.
Proof.
  intros d.
  apply (element_without_id_is_rejected repr_unused true d [("email", JStr "a@x.com")]);
    reflexivity.
Defined.

Lemma contact_fields_are_copied_witness :
  contact_item repr_unused false
    (JObj [("id", JStr "4");
           ("properties", JObj [("lastname", JStr "B"); ("email", JNull);
                                ("phone", JStr "555")])])
  = Ok {| id := "4"; name := " B"; type := "contact"; email := None;
          phone := Some "555"; website := None; industry := None |}.
Proof.
  apply (contact_fields_are_copied repr_unused false
           [("id", JStr "4");
            ("properties", JObj [("lastname", JStr "B"); ("email", JNull);
                                 ("phone", JStr "555")])]
           [("lastname", JStr "B"); ("email", JNull); ("phone", JStr "555")]
           "4" None (Some "555"));
    reflexivity.
Defined.

Lemma company_fields_are_copied_witness :
  company_item repr_unused false sample_company = Ok sample_company_item.
Proof.
  apply (company_fields_are_copied repr_unused false
           [("id", JStr "9");
            ("properties", JObj [("name", JStr "Acme"); ("website", JStr "acme.test")])]
           [("name", JStr "Acme"); ("website", JStr "acme.test")]
           "9" "Acme" (Some "acme.test") None);
    reflexivity.
Defined.

Lemma null_is_not_defaulted_witness :
  company_item repr_unused false
    (JObj [("id", JStr "3"); ("properties", JObj [("name", JNull)])])
  = Raise ValidationError.
Proof.
  apply (proj1 (null_is_not_defaulted repr_unused false
                  [("id", JStr "3"); ("properties", JObj [("name", JNull)])]
                  [("name", JNull)] eq_refl)).
  reflexivity.
Defined.

Lemma unusable_contacts_page_aborts_fetch_witness :
  let w := stored sample_credentials in
  let stopped e :=
    (Raise e : result (list IntegrationItem),
     logged w [contacts_request repr_unused (JStr "tok")]) in
  get_items_hubspot repr_unused false (serve garbled (page [sample_company])) "u" "o" w
  = stopped JSONDecodeError /\
  get_items_hubspot repr_unused false
    (serve (ok_body (JArr [sample_contact])) (page [sample_company])) "u" "o" w
  = stopped AttributeError /\
  get_items_hubspot repr_unused false
    (serve (ok_body (JObj [("results", JNull)])) (page [sample_company])) "u" "o" w
  = stopped TypeError /\
  get_items_hubspot repr_unused false
    (serve (ok_body (JObj [("results", JInt 0)])) (page [sample_company])) "u" "o" w
  = stopped TypeError.
Proof.
  intros w stopped. split; [|split; [|split]].
  - apply (proj1 (unusable_contacts_page_aborts_fetch repr_unused false
                    (serve garbled (page [sample_company])) "u" "o" w (JStr "tok")
                    sample_authorized eq_refl)).
    reflexivity.
  - apply (proj1 (proj2 (unusable_contacts_page_aborts_fetch repr_unused false
                    (serve (ok_body (JArr [sample_contact])) (page [sample_company]))
                    "u" "o" w (JStr "tok") sample_authorized eq_refl))
             (JArr [sample_contact])).
    + reflexivity.
    + intros d. discriminate.
  - apply (proj2 (proj2 (unusable_contacts_page_aborts_fetch repr_unused false
                    (serve (ok_body (JObj [("results", JNull)])) (page [sample_company]))
                    "u" "o" w (JStr "tok") sample_authorized eq_refl))
             [("results", JNull)] JNull).
    + reflexivity.
    + reflexivity.
    + left. reflexivity.
  - apply (proj2 (proj2 (unusable_contacts_page_aborts_fetch repr_unused false
                    (serve (ok_body (JObj [("results", JInt 0)])) (page [sample_company]))
                    "u" "o" w (JStr "tok") sample_authorized eq_refl))
             [("results", JInt 0)] (JInt 0)).
    + reflexivity.
    + reflexivity.
    + right. right. left. now exists 0.
Defined.

(** ** The amended C3 at concrete inputs *)

Lemma no_items_found_exactly_when_nothing_produced_witness :
  let w := stored sample_credentials in
  fst (get_items_hubspot repr_unused false (serve (failed 503) (page [])) "u" "o" w)
    = Raise (HTTPException 404 "No HubSpot items found") /\
  fst (get_items_hubspot repr_unused false
         (serve (page [sample_contact]) (page [sample_company])) "u" "o" w)
    = Ok ([sample_contact_item] ++ [sample_company_item]) /\
  fst (get_items_hubspot repr_unused false
         (serve (page [sample_contact]) garbled) "u" "o" w)
    = Raise JSONDecodeError.
Proof.
  intros w. split; [|split].
  - apply (proj1 (no_items_found_exactly_when_nothing_produced repr_unused false
                    (serve (failed 503) (page [])) "u" "o" w (JStr "tok")
                    sample_authorized)).
    + left. discriminate.
    + right. exists [("results", JArr [])]. split; reflexivity.
  - apply (proj1 (proj2 (no_items_found_exactly_when_nothing_produced
                    repr_unused false
                    (serve (page [sample_contact]) (page [sample_company]))
                    "u" "o" w (JStr "tok") sample_authorized))).
    + reflexivity.
    + reflexivity.
    + discriminate.
  - apply (proj1 (proj2 (proj2 (proj2 (no_items_found_exactly_when_nothing_produced
                    repr_unused false (serve (page [sample_contact]) garbled)
                    "u" "o" w (JStr "tok") sample_authorized))))
             [sample_contact_item]).
    + reflexivity.
    + reflexivity.
Defined.

(** C3, as stated, fails: the contacts page produces an item, then the
    companies page raises (a 200 body that is not JSON, or a company whose
    name is null), and the fetch raises that error and returns no list. *)
Lemma produced_item_is_lost_when_companies_raise :
  let w := stored sample_credentials in
  let null_named :=
    JObj [("id", JStr "3"); ("properties", JObj [("name", JNull)])] in
  items_of (contact_item repr_unused false)
    (serve (page [sample_contact]) garbled (contacts_request repr_unused (JStr "tok")))
    = Ok [sample_contact_item] /\
  fst (get_items_hubspot repr_unused false
         (serve (page [sample_contact]) garbled) "u" "o" w)
    = Raise JSONDecodeError /\
  fst (get_items_hubspot repr_unused false
         (serve (page [sample_contact]) (page [null_named])) "u" "o" w)
    = Raise ValidationError.
Proof. repeat split; reflexivity. Qed.
